(** * Mozhi translator: the audio capture, buffering and live-session pipeline

    A shallow embedding of
    - [src/hooks/useAudioRecording.ts]   (module [Recording]),
    - [src/components/LiveCoach.tsx]     (module [LiveCoach]),
    - the failure categorisation of [src/components/DraftingAssistant.tsx]
      and of the research assistant    (module [RemoteErrors]),
    - [src/hooks/useWaveform.ts]         (module [Waveform]),
    - the duration text of the components (module [Display]),
    followed by the properties of the specification that concern them
    (C1 to C10) and by further properties of the same code (X1 to X22). *)

From Stdlib Require Import String Ascii.
From Stdlib Require Import List Arith Bool Lia.
From Stdlib Require Import ZArith QArith Qminmax Lqa.
From Stdlib Require Import Floats.
From Stdlib Require Import NArith DecimalString DecimalN.
Import ListNotations.

Local Open Scope nat_scope.

(** ** JavaScript numbers *)

(** The operations the modelled code applies to numbers that stand for
    times: the literal [0], [+] and [<].  The code runs on binary64
    floats ([Number_float]); the general statements about schedules are
    made over exact rationals ([Number_Q]). *)
Class Number (T : Type) : Type := {
  num_zero : T;
  num_add : T -> T -> T;
  num_lt : T -> T -> bool
}.

#[export] Instance Number_Q : Number Q := {|
  num_zero := 0%Q;
  num_add := Qplus;
  num_lt := fun x y => negb (Qle_bool y x)
|}.

#[export] Instance Number_float : Number float := {|
  num_zero := 0%float;
  num_add := PrimFloat.add;
  num_lt := PrimFloat.ltb
|}.

(** ** JavaScript arrays *)

(** [Array.prototype.splice(start, deleteCount)] without inserted items:
    the elements [start .. start+deleteCount-1] that exist are removed, the
    others keep their order.  Past the end nothing is removed. *)
Definition splice {A : Type} (start deleteCount : nat) (l : list A) : list A :=
  firstn start l ++ skipn (start + deleteCount) l.

(** ** Blobs and browser calls *)

(** A [Blob]: its bytes and its MIME type. [size] is the number of bytes. *)
Record Blob : Type := mkBlob {
  blob_bytes : list Byte.byte;
  blob_type : string
}.

Definition size (b : Blob) : nat := length (blob_bytes b).

(** [new Blob(parts, { type })]: the parts' bytes, in order. *)
Definition newBlob (parts : list Blob) (type : string) : Blob :=
  mkBlob (flat_map blob_bytes parts) type.

Inductive AudioContextId : Type := InputContext | OutputContext | RecordingContext.

(** The calls into the browser, the remote service and the consumer that
    the modelled code issues, in the order it issues them.  [T] is the type
    of JavaScript numbers used for times. *)
Inductive Call (T : Type) : Type :=
| PermissionsQuery                       (* navigator.permissions.query *)
| GetUserMedia                           (* navigator.mediaDevices.getUserMedia *)
| NewAudioContext (c : AudioContextId) (rate : Z)
| CloseAudioContext (c : AudioContextId) (* ctx.close() *)
| NewMediaRecorder
| RecorderStart (timeslice : nat)        (* mediaRecorder.start(ms) *)
| RecorderStop                           (* mediaRecorder.stop() *)
| TrackStop                              (* stream.getTracks().forEach(t => t.stop()) *)
| SetInterval (ms : nat)
| ClearInterval
| RequestAnimationFrame
| CancelAnimationFrame
| ClearCanvas
| ConsoleLog (s : string)
| ConsoleError (s : string)
| RecordingStopped (b : Blob)            (* onRecordingStop(audioBlob) *)
| LiveConnect                            (* ai.live.connect({...}) *)
| SendRealtimeInput (mimeType data : string)   (* session.sendRealtimeInput *)
| SessionClose                           (* session.close() *)
| BufferSourceStart (when : T).          (* bufferSource.start(when) *)

Arguments PermissionsQuery {T}.
Arguments GetUserMedia {T}.
Arguments NewAudioContext {T}.
Arguments CloseAudioContext {T}.
Arguments NewMediaRecorder {T}.
Arguments RecorderStart {T}.
Arguments RecorderStop {T}.
Arguments TrackStop {T}.
Arguments SetInterval {T}.
Arguments ClearInterval {T}.
Arguments RequestAnimationFrame {T}.
Arguments CancelAnimationFrame {T}.
Arguments ClearCanvas {T}.
Arguments ConsoleLog {T}.
Arguments ConsoleError {T}.
Arguments RecordingStopped {T}.
Arguments LiveConnect {T}.
Arguments SendRealtimeInput {T}.
Arguments SessionClose {T}.
Arguments BufferSourceStart {T}.

(** What [getUserMedia] does when it is called: it resolves with a stream
    or rejects with an exception of the given [name]. *)
Inductive MediaOutcome : Type :=
| StreamGranted
| MediaRejects (name : string).

(** ** useAudioRecording *)

Module Recording.

Definition MAX_RECORDING_CHUNKS : nat := 300.

Record ErrorState : Type := mkError {
  title : string;
  message : string;
  isPermissionError : bool;
  errorId : string
}.

Record UseAudioRecordingOptions : Type := mkOptions {
  onRecordingStop : bool;   (* is a consumer callback supplied? *)
  sampleRate : Z
}.

(** The recorder object with what its [onstop] closure captured. *)
Record MediaRecorder : Type := mkRecorder {
  rec_onRecordingStop : bool
}.

(** The hook's React state and refs. *)
Record Hook : Type := mkHook {
  isRecording : bool;
  recordingDuration : nat;
  bufferCount : nat;
  errorState : option ErrorState;
  permissionDenied : bool;
  mediaRecorderRef : option MediaRecorder;
  audioChunksRef : list Blob;
  recordingContextRef : bool;
  analyserRef : bool;
  canvasRef : bool;
  animationFrameRef : bool;
  timerIntervalRef : bool
}.

Definition initial : Hook :=
  mkHook false 0 0 None false None [] false false false false false.

Definition set_chunks (l : list Blob) (count : nat) (h : Hook) : Hook :=
  mkHook (isRecording h) (recordingDuration h) count (errorState h)
         (permissionDenied h) (mediaRecorderRef h) l (recordingContextRef h)
         (analyserRef h) (canvasRef h) (animationFrameRef h)
         (timerIntervalRef h).

Definition setErrorState (e : option ErrorState) (h : Hook) : Hook :=
  mkHook (isRecording h) (recordingDuration h) (bufferCount h) e
         (permissionDenied h) (mediaRecorderRef h) (audioChunksRef h)
         (recordingContextRef h) (analyserRef h) (canvasRef h)
         (animationFrameRef h) (timerIntervalRef h).

Definition setPermissionDenied (b : bool) (h : Hook) : Hook :=
  mkHook (isRecording h) (recordingDuration h) (bufferCount h) (errorState h)
         b (mediaRecorderRef h) (audioChunksRef h)
         (recordingContextRef h) (analyserRef h) (canvasRef h)
         (animationFrameRef h) (timerIntervalRef h).

Definition setIsRecording (b : bool) (h : Hook) : Hook :=
  mkHook b (recordingDuration h) (bufferCount h) (errorState h)
         (permissionDenied h) (mediaRecorderRef h) (audioChunksRef h)
         (recordingContextRef h) (analyserRef h) (canvasRef h)
         (animationFrameRef h) (timerIntervalRef h).

Definition setRecordingDuration (n : nat) (h : Hook) : Hook :=
  mkHook (isRecording h) n (bufferCount h) (errorState h)
         (permissionDenied h) (mediaRecorderRef h) (audioChunksRef h)
         (recordingContextRef h) (analyserRef h) (canvasRef h)
         (animationFrameRef h) (timerIntervalRef h).

Definition set_timer (b : bool) (h : Hook) : Hook :=
  mkHook (isRecording h) (recordingDuration h) (bufferCount h) (errorState h)
         (permissionDenied h) (mediaRecorderRef h) (audioChunksRef h)
         (recordingContextRef h) (analyserRef h) (canvasRef h)
         (animationFrameRef h) b.

Definition set_animationFrame (b : bool) (h : Hook) : Hook :=
  mkHook (isRecording h) (recordingDuration h) (bufferCount h) (errorState h)
         (permissionDenied h) (mediaRecorderRef h) (audioChunksRef h)
         (recordingContextRef h) (analyserRef h) (canvasRef h)
         b (timerIntervalRef h).

(** Lines 123-135: the context, the analyser and the recorder are stored. *)
Definition set_devices (r : MediaRecorder) (h : Hook) : Hook :=
  mkHook (isRecording h) (recordingDuration h) (bufferCount h) (errorState h)
         (permissionDenied h) (Some r) (audioChunksRef h)
         true true (canvasRef h) (animationFrameRef h) (timerIntervalRef h).

(** Lines 142-147: append, then drop index 1 when the bound is exceeded.
    The bound is the module constant; it is a parameter here so that the
    policy can be run at other capacities too. *)
Definition push_chunk (C : nat) (chunks : list Blob) (data : Blob) : list Blob :=
  let pushed := chunks ++ [data] in
  if C <? length pushed then splice 1 1 pushed else pushed.

(** [mediaRecorder.ondataavailable], at capacity [C]. *)
Definition ondataavailable_at (C : nat) (data : Blob) (h : Hook) : Hook :=
  if 0 <? size data
  then let chunks := push_chunk C (audioChunksRef h) data in
       set_chunks chunks (length chunks) h
  else h.

Definition ondataavailable : Blob -> Hook -> Hook :=
  ondataavailable_at MAX_RECORDING_CHUNKS.

(** Lines 136-138 of [startRecording]: a new session empties the buffer. *)
Definition reset_buffer (h : Hook) : Hook :=
  setRecordingDuration 0 (set_chunks [] 0 h).

(** The chunk-ready events of one session, in order. *)
Definition feed_at (C : nat) (events : list Blob) (h : Hook) : Hook :=
  fold_left (fun s d => ondataavailable_at C d s) events h.

Definition feed : list Blob -> Hook -> Hook := feed_at MAX_RECORDING_CHUNKS.

(** The events that append: those with [event.data.size > 0]. *)
Definition appended (d : Blob) : bool := 0 <? size d.

(** *** startRecording *)

Inductive PermissionState : Type := granted | denied | prompt.

(** [navigator.permissions]: absent, or a [query] that resolves or throws. *)
Inductive PermissionsApi : Type :=
| NoPermissionsApi
| QueryResolves (s : PermissionState)
| QueryThrows.

(** The browser as one call of [startRecording] meets it.  The constructors
    of lines 124-135 and [mediaRecorder.start] are taken not to throw. *)
Record Browser : Type := mkBrowser {
  permissions : PermissionsApi;
  getUserMedia : MediaOutcome
}.

Definition stillBlocked : ErrorState :=
  mkError "Permission Still Blocked"
    "Microphone access is still blocked. Please click the lock icon in your browser's address bar, allow Microphone, then refresh the page."
    true "permission-blocked-refresh".

Definition queryDenied : ErrorState :=
  mkError "Access Denied"
    "Microphone access is blocked. Please click the lock icon in your browser's address bar, allow Microphone, then refresh the page."
    true "permission-denied".

Definition accessDenied : ErrorState :=
  mkError "Access Denied"
    "Microphone access blocked. Please click the lock icon in your browser's address bar, allow Microphone, then refresh the page."
    true "permission-denied".

Definition micError : ErrorState :=
  mkError "Microphone Error"
    "Unable to access microphone. Please check permissions."
    false "mic-error".

Definition Eff : Type := Call Q.

(** The [catch] block, lines 172-187. *)
Definition startRecording_catch (name : string) (h : Hook) : Hook * list Eff :=
  if (name =? "NotAllowedError")%string || (name =? "PermissionDeniedError")%string
  then (setErrorState (Some accessDenied) (setPermissionDenied true h),
        [ConsoleError "Error accessing microphone:"])
  else (setErrorState (Some micError) h,
        [ConsoleError "Error accessing microphone:"]).

(** Lines 117-170, from [setErrorState(null)] on. *)
Definition startRecording_acquire (opts : UseAudioRecordingOptions)
    (env : Browser) (h : Hook) : Hook * list Eff :=
  let h := setErrorState None h in
  match getUserMedia env with
  | MediaRejects name =>
      let (h', calls) := startRecording_catch name h in
      (h', GetUserMedia :: calls)
  | StreamGranted =>
      let h := setPermissionDenied false h in
      let h := set_devices (mkRecorder (onRecordingStop opts)) h in
      let h := reset_buffer h in
      let h := setIsRecording true h in
      let h := set_timer true h in
      (h, [GetUserMedia; NewAudioContext RecordingContext (sampleRate opts);
           NewMediaRecorder; RecorderStart 1000; SetInterval 1000])
  end.

(** [startRecording], lines 84-188.  [useCallback] lists [permissionDenied]
    among its dependencies, so the callback a consumer gets after a render
    reads the flag of that render: the current one. *)
Definition startRecording (opts : UseAudioRecordingOptions)
    (env : Browser) (h : Hook) : Hook * list Eff :=
  if permissionDenied h
  then (setErrorState (Some stillBlocked) h, [])
  else
    match permissions env with
    | NoPermissionsApi => startRecording_acquire opts env h
    | QueryResolves denied =>
        (setErrorState (Some queryDenied) (setPermissionDenied true h),
         [PermissionsQuery])
    | QueryResolves _ =>
        let (h', calls) := startRecording_acquire opts env h in
        (h', PermissionsQuery :: calls)
    | QueryThrows =>
        let (h', calls) := startRecording_acquire opts env h in
        (h', PermissionsQuery
             :: ConsoleLog "Permission query not supported, attempting direct access"
             :: calls)
    end.

(** *** The recorder's stop handler and stopRecording *)

(** [mediaRecorder.onstop], lines 152-162, of recorder [r]. *)
Definition onstop (r : MediaRecorder) (h : Hook) : Hook * list Eff :=
  let pre := if timerIntervalRef h then [ClearInterval] else [] in
  let h := if timerIntervalRef h then set_timer false h else h in
  match audioChunksRef h with
  | [] => (h, pre)
  | _ :: _ =>
      if rec_onRecordingStop r
      then (h, pre ++ [RecordingStopped (newBlob (audioChunksRef h) "audio/webm")])
      else (h, pre)
  end.

(** [stopRecording], lines 190-213. *)
Definition stopRecording (h : Hook) : Hook * list Eff :=
  let c1 := match mediaRecorderRef h with
            | Some _ => if isRecording h then [RecorderStop; TrackStop] else []
            | None => []
            end in
  let h := match mediaRecorderRef h with
           | Some _ => if isRecording h then setIsRecording false h else h
           | None => h
           end in
  let c2 := if timerIntervalRef h then [ClearInterval] else [] in
  let h := if timerIntervalRef h then set_timer false h else h in
  let c3 := if animationFrameRef h then [CancelAnimationFrame] else [] in
  let h := if animationFrameRef h then set_animationFrame false h else h in
  let c4 := if canvasRef h then [ClearCanvas] else [] in
  (h, c1 ++ c2 ++ c3 ++ c4).

(** [getAudioBlob], lines 79-82. *)
Definition getAudioBlob (h : Hook) : option Blob :=
  match audioChunksRef h with
  | [] => None
  | chunks => Some (newBlob chunks "audio/webm")
  end.

(** *** The hook as an event-driven machine *)

Inductive Action : Type :=
| CallStart (env : Browser)     (* the consumer calls startRecording *)
| CallStop                      (* the consumer calls stopRecording *)
| CallClearError                (* the consumer calls clearError *)
| DataAvailable (d : Blob)      (* the recorder fires dataavailable *)
| RecorderStopped               (* the recorder fires stop *)
| TimerTick.                    (* the 1-second interval fires *)

Definition step (opts : UseAudioRecordingOptions) (a : Action) (h : Hook)
  : Hook * list Eff :=
  match a with
  | CallStart env => startRecording opts env h
  | CallStop => stopRecording h
  | CallClearError => (setErrorState None h, [])
  | DataAvailable d =>
      match mediaRecorderRef h with
      | Some _ => (ondataavailable d h, [])
      | None => (h, [])
      end
  | RecorderStopped =>
      match mediaRecorderRef h with
      | Some r => onstop r h
      | None => (h, [])
      end
  | TimerTick =>
      if timerIntervalRef h
      then (setRecordingDuration (S (recordingDuration h)) h, [])
      else (h, [])
  end.

Fixpoint run (opts : UseAudioRecordingOptions) (actions : list Action)
    (h : Hook) : Hook * list Eff :=
  match actions with
  | [] => (h, [])
  | a :: rest =>
      let (h1, c1) := step opts a h in
      let (h2, c2) := run opts rest h1 in
      (h2, c1 ++ c2)
  end.

Definition is_GetUserMedia (c : Eff) : bool :=
  match c with GetUserMedia => true | _ => false end.

Definition is_RecordingStopped (c : Eff) : bool :=
  match c with RecordingStopped _ => true | _ => false end.

End Recording.

(** ** LiveCoach *)

Module LiveCoach.

Inductive Status : Type := idle | connecting | connected | error.

Section WithNumbers.

Context {T : Type} `{Number T}.

(** [floatTo16BitPCM] followed by [base64Encode], and [base64ToBytes]
    followed by [pcmToAudioBuffer]: both pairs come from
    [utils/audioUtils], which is not among the sources, so they are
    parameters.  [decodeSegment] returns [None] where the decoding throws. *)
Record AudioBuffer : Type := mkBuffer { duration : T }.

Variable encodeFrame : list T -> string.
Variable decodeSegment : string -> option AudioBuffer.

(** The component's React state and refs. *)
Record Coach : Type := mkCoach {
  isConnected : bool;
  isMuted : bool;
  volumeLevel : T;
  status : Status;
  audioContextRef : bool;
  inputContextRef : bool;
  sessionRef : bool;
  outputNodeRef : bool;
  nextStartTimeRef : T;
  analyserRef : bool;
  animationFrameRef : bool
}.

Definition initial : Coach :=
  mkCoach false false num_zero idle false false false false num_zero false false.

(** What the callbacks built by one run of [connect] close over besides
    refs, setters and the devices of that run: the constant [isMuted] of
    the render whose [connect] was running.  [connect] and [toggleMute]
    are plain functions of the component body, made anew at each render
    and bound to the buttons of that render, so a click runs them with
    the current state; the callbacks made inside [connect] live on with
    the constants of the render that made them. *)
Record Closure : Type := mkClosure { cl_isMuted : bool }.

(** The component together with the handlers that are installed:
    the callbacks given to [ai.live.connect] by the latest [connect], and
    [scriptProcessor.onaudioprocess] once [onopen] has assigned it. *)
Record Live : Type := mkLive {
  coach : Coach;
  callbacks : option Closure;
  onaudioprocess : option Closure
}.

Definition start : Live := mkLive initial None None.

Definition setStatus (s : Status) (c : Coach) : Coach :=
  mkCoach (isConnected c) (isMuted c) (volumeLevel c) s (audioContextRef c)
          (inputContextRef c) (sessionRef c) (outputNodeRef c)
          (nextStartTimeRef c) (analyserRef c) (animationFrameRef c).

Definition setIsConnected (b : bool) (c : Coach) : Coach :=
  mkCoach b (isMuted c) (volumeLevel c) (status c) (audioContextRef c)
          (inputContextRef c) (sessionRef c) (outputNodeRef c)
          (nextStartTimeRef c) (analyserRef c) (animationFrameRef c).

Definition setIsMuted (b : bool) (c : Coach) : Coach :=
  mkCoach (isConnected c) b (volumeLevel c) (status c) (audioContextRef c)
          (inputContextRef c) (sessionRef c) (outputNodeRef c)
          (nextStartTimeRef c) (analyserRef c) (animationFrameRef c).

Definition setVolumeLevel (v : T) (c : Coach) : Coach :=
  mkCoach (isConnected c) (isMuted c) v (status c) (audioContextRef c)
          (inputContextRef c) (sessionRef c) (outputNodeRef c)
          (nextStartTimeRef c) (analyserRef c) (animationFrameRef c).

Definition set_nextStartTime (t : T) (c : Coach) : Coach :=
  mkCoach (isConnected c) (isMuted c) (volumeLevel c) (status c)
          (audioContextRef c) (inputContextRef c) (sessionRef c)
          (outputNodeRef c) t (analyserRef c) (animationFrameRef c).

Definition set_animationFrame (b : bool) (c : Coach) : Coach :=
  mkCoach (isConnected c) (isMuted c) (volumeLevel c) (status c)
          (audioContextRef c) (inputContextRef c) (sessionRef c)
          (outputNodeRef c) (nextStartTimeRef c) (analyserRef c) b.

(** [disconnect], lines 27-47. *)
Definition disconnect (c : Coach) : Coach * list (Call T) :=
  let k1 := if animationFrameRef c then [CancelAnimationFrame] else [] in
  let k2 := if audioContextRef c then [CloseAudioContext OutputContext] else [] in
  let k3 := if inputContextRef c then [CloseAudioContext InputContext] else [] in
  (mkCoach false (isMuted c) num_zero idle false false (sessionRef c)
           (outputNodeRef c) (nextStartTimeRef c) (analyserRef c) false,
   k1 ++ k2 ++ k3).

(** [updateVolume], lines 76-89; [level] is [avg * 1.5] of the analyser's
    frequency bins at that moment. *)
Definition updateVolume (level : T) (c : Coach) : Coach * list (Call T) :=
  if analyserRef c
  then (set_animationFrame true (setVolumeLevel level c), [RequestAnimationFrame])
  else (c, []).

(** [connect], lines 49-191, up to the point where it returns; the
    callbacks it hands to [ai.live.connect] run later, as events.
    [ai.live.connect] itself and the constructors are taken not to throw. *)
Definition connect (media : MediaOutcome) (level : T) (l : Live)
  : Live * list (Call T) :=
  let c := setStatus connecting (coach l) in
  match media with
  | MediaRejects _ =>
      let (c', k) := disconnect (setStatus error c) in
      (mkLive c' (callbacks l) (onaudioprocess l),
       GetUserMedia :: ConsoleError "Failed to connect" :: k)
  | StreamGranted =>
      (* 1. input context, analyser, script processor *)
      let c := mkCoach (isConnected c) (isMuted c) (volumeLevel c) (status c)
                       (audioContextRef c) true (sessionRef c)
                       (outputNodeRef c) (nextStartTimeRef c) true
                       (animationFrameRef c) in
      let (c, kv) := updateVolume level c in
      (* 2. output context, gain node, clock *)
      let c := mkCoach (isConnected c) (isMuted c) (volumeLevel c) (status c)
                       true (inputContextRef c) (sessionRef c)
                       true num_zero (analyserRef c)
                       (animationFrameRef c) in
      (* 3. the session, with callbacks closing over this render *)
      let c := mkCoach (isConnected c) (isMuted c) (volumeLevel c) (status c)
                       (audioContextRef c) (inputContextRef c) true
                       (outputNodeRef c) (nextStartTimeRef c) (analyserRef c)
                       (animationFrameRef c) in
      (mkLive c (Some (mkClosure (isMuted (coach l)))) None,
       [GetUserMedia; NewAudioContext InputContext 16000%Z] ++ kv
       ++ [NewAudioContext OutputContext 24000%Z; LiveConnect])
  end.

(** [callbacks.onopen], lines 121-143. *)
Definition onopen (cl : Closure) (l : Live) : Live * list (Call T) :=
  (mkLive (setStatus connected (setIsConnected true (coach l)))
          (callbacks l) (Some cl),
   [ConsoleLog "Live Session Opened"]).

(** The handler assigned to [scriptProcessor.onaudioprocess], lines 127-142. *)
Definition audioprocess (cl : Closure) (frame : list T) : list (Call T) :=
  if cl_isMuted cl then []
  else [SendRealtimeInput "audio/pcm;rate=16000" (encodeFrame frame)].

(** The scheduling of one decoded buffer, lines 157-164: the start time
    handed to [bufferSource.start] and the new [nextStartTimeRef]. *)
Definition schedule (currentTime : T) (buf : AudioBuffer) (nextStartTime : T)
  : T * T :=
  let nextStartTime :=
    if num_lt nextStartTime currentTime then currentTime else nextStartTime in
  (nextStartTime, num_add nextStartTime (duration buf)).

(** A JavaScript string is truthy when it is not empty. *)
Definition truthy (s : string) : bool :=
  match s with EmptyString => false | _ => true end.

(** [callbacks.onmessage], lines 144-170.  [data] is
    [message.serverContent?.modelTurn?.parts?.[0]?.inlineData?.data] and
    [currentTime] is what [outputContext.currentTime] reads. *)
Definition onmessage (data : option string) (currentTime : T) (c : Coach)
  : Coach * list (Call T) :=
  match data with
  | None => (c, [])
  | Some base64Audio =>
      if truthy base64Audio && outputNodeRef c
      then match decodeSegment base64Audio with
           | Some audioBuffer =>
               let (when, next) :=
                 schedule currentTime audioBuffer (nextStartTimeRef c) in
               (set_nextStartTime next c, [BufferSourceStart when])
           | None => (c, [ConsoleError "Error decoding audio chunk"])
           end
      else (c, [])
  end.

(** [callbacks.onclose] and [callbacks.onerror], lines 171-180. *)
Definition onclose (c : Coach) : Coach * list (Call T) :=
  (setStatus idle (setIsConnected false c), [ConsoleLog "Live Session Closed"]).

Definition onerror (c : Coach) : Coach * list (Call T) :=
  let (c', k) := disconnect (setStatus error c) in
  (c', ConsoleError "Live Session Error" :: k).

(** [toggleMute], lines 193-195, of the current render. *)
Definition toggleMute (c : Coach) : Coach :=
  setIsMuted (negb (isMuted c)) c.

(** *** The component as an event-driven machine *)

Inductive Event : Type :=
| ClickConnect (media : MediaOutcome) (level : T)
| ClickMute
| ClickEnd
| AnimationFrame (level : T)
| RemoteOpen
| RemoteMessage (data : option string) (currentTime : T)
| RemoteClose
| RemoteError
| AudioProcess (frame : list T).

Definition with_coach (l : Live) (r : Coach * list (Call T))
  : Live * list (Call T) :=
  (mkLive (fst r) (callbacks l) (onaudioprocess l), snd r).

Definition step (e : Event) (l : Live) : Live * list (Call T) :=
  match e with
  | ClickConnect media level => connect media level l
  | ClickMute => (mkLive (toggleMute (coach l)) (callbacks l) (onaudioprocess l), [])
  | ClickEnd => with_coach l (disconnect (coach l))
  | AnimationFrame level =>
      if animationFrameRef (coach l)
      then with_coach l (updateVolume level (coach l))
      else (l, [])
  | RemoteOpen =>
      match callbacks l with
      | Some cl => onopen cl l
      | None => (l, [])
      end
  | RemoteMessage data currentTime =>
      match callbacks l with
      | Some _ => with_coach l (onmessage data currentTime (coach l))
      | None => (l, [])
      end
  | RemoteClose =>
      match callbacks l with
      | Some _ => with_coach l (onclose (coach l))
      | None => (l, [])
      end
  | RemoteError =>
      match callbacks l with
      | Some _ => with_coach l (onerror (coach l))
      | None => (l, [])
      end
  | AudioProcess frame =>
      match onaudioprocess l with
      | Some cl =>
          if inputContextRef (coach l) then (l, audioprocess cl frame)
          else (l, [])
      | None => (l, [])
      end
  end.

Fixpoint run (events : list Event) (l : Live) : Live * list (Call T) :=
  match events with
  | [] => (l, [])
  | e :: rest =>
      let (l1, k1) := step e l in
      let (l2, k2) := run rest l1 in
      (l2, k1 ++ k2)
  end.

(** The incoming segments of a session, each with the reading of the
    output clock at its arrival. *)
Fixpoint receive (msgs : list (option string * T)) (c : Coach)
  : Coach * list (Call T) :=
  match msgs with
  | [] => (c, [])
  | (data, currentTime) :: rest =>
      let (c1, k1) := onmessage data currentTime c in
      let (c2, k2) := receive rest c1 in
      (c2, k1 ++ k2)
  end.

(** The decoded buffers of a session handed to the scheduler one after
    the other, lines 157-164 only: the start times, in order. *)
Fixpoint play (segments : list (T * AudioBuffer)) (nextStartTime : T) : list T :=
  match segments with
  | [] => []
  | (currentTime, buf) :: rest =>
      let (when, next) := schedule currentTime buf nextStartTime in
      when :: play rest next
  end.

(** The start times given to [bufferSource.start] in a list of calls. *)
Fixpoint starts (calls : list (Call T)) : list T :=
  match calls with
  | [] => []
  | BufferSourceStart t :: rest => t :: starts rest
  | _ :: rest => starts rest
  end.

Definition is_send (k : Call T) : bool :=
  match k with SendRealtimeInput _ _ => true | _ => false end.

(** *** The devices and the channel behind the calls *)

(** What is held open after a sequence of calls. *)
Record Resources : Type := mkResources {
  micTracksLive : bool;
  inputContextOpen : bool;
  outputContextOpen : bool;
  channelOpen : bool;
  frameRequested : bool
}.

Definition nothing_open : Resources := mkResources false false false false false.

Definition effect (r : Resources) (k : Call T) : Resources :=
  match k with
  | GetUserMedia =>
      mkResources true (inputContextOpen r) (outputContextOpen r)
                  (channelOpen r) (frameRequested r)
  | TrackStop =>
      mkResources false (inputContextOpen r) (outputContextOpen r)
                  (channelOpen r) (frameRequested r)
  | NewAudioContext InputContext _ =>
      mkResources (micTracksLive r) true (outputContextOpen r)
                  (channelOpen r) (frameRequested r)
  | CloseAudioContext InputContext =>
      mkResources (micTracksLive r) false (outputContextOpen r)
                  (channelOpen r) (frameRequested r)
  | NewAudioContext OutputContext _ =>
      mkResources (micTracksLive r) (inputContextOpen r) true
                  (channelOpen r) (frameRequested r)
  | CloseAudioContext OutputContext =>
      mkResources (micTracksLive r) (inputContextOpen r) false
                  (channelOpen r) (frameRequested r)
  | LiveConnect =>
      mkResources (micTracksLive r) (inputContextOpen r) (outputContextOpen r)
                  true (frameRequested r)
  | SessionClose =>
      mkResources (micTracksLive r) (inputContextOpen r) (outputContextOpen r)
                  false (frameRequested r)
  | RequestAnimationFrame =>
      mkResources (micTracksLive r) (inputContextOpen r) (outputContextOpen r)
                  (channelOpen r) true
  | CancelAnimationFrame =>
      mkResources (micTracksLive r) (inputContextOpen r) (outputContextOpen r)
                  (channelOpen r) false
  | _ => r
  end.

Definition held (calls : list (Call T)) (r : Resources) : Resources :=
  fold_left effect calls r.

End WithNumbers.

End LiveCoach.

(** ** Failures of the one-shot requests *)

Module RemoteErrors.

Local Open Scope string_scope.

(** [String.prototype.includes]: [needle] occurs somewhere in [hay]. *)
Fixpoint includes (hay needle : string) : bool :=
  String.prefix needle hay
  || match hay with
     | EmptyString => false
     | String _ rest => includes rest needle
     end.

(** [String.prototype.toLowerCase] on the ASCII letters; other bytes are
    kept as they are. *)
Definition lower (c : ascii) : ascii :=
  let n := nat_of_ascii c in
  if (65 <=? n)%nat && (n <=? 90)%nat then ascii_of_nat (n + 32) else c.

Fixpoint toLowerCase (s : string) : string :=
  match s with
  | EmptyString => EmptyString
  | String c rest => String (lower c) (toLowerCase rest)
  end.

(** What [setProcessingError] receives. *)
Record ProcessingError : Type := mkProcessingError {
  title : string;
  message : string
}.

(** The [catch] block of [processAudioBlob] in DraftingAssistant.tsx, lines
    154-176; [description] is [error.toString()]. *)
Definition processAudioBlob_catch (description : string) : ProcessingError :=
  let errString := toLowerCase description in
  if includes errString "safety" || includes errString "blocked" then
    mkProcessingError "Content Flagged"
      "The content was flagged by safety filters. Please try rephrasing."
  else if includes errString "429" || includes errString "resource exhausted" then
    mkProcessingError "High Traffic"
      "Mozhi is very popular right now! Please wait a moment and try again."
  else if includes errString "no response generated" || includes errString "candidate" then
    mkProcessingError "Audio Unclear"
      "We couldn't hear you clearly. Please speak closer to the microphone."
  else if includes errString "network" || includes errString "fetch" then
    mkProcessingError "Connection Error"
      "Please check your internet connection and try again."
  else
    mkProcessingError "Processing Failed"
      "An unexpected error occurred. Please try again.".

(** The [catch] block of [handleRecordingStop] in the research assistant,
    lines 58-79. *)
Definition handleRecordingStop_catch (description : string) : ProcessingError :=
  let errString := toLowerCase description in
  if includes errString "safety" || includes errString "blocked" then
    mkProcessingError "Content Flagged"
      "The content was flagged by safety filters. Please try rephrasing."
  else if includes errString "429" || includes errString "resource exhausted" then
    mkProcessingError "System Busy"
      "System is busy. Please wait a moment and try again."
  else if includes errString "no response generated" || includes errString "candidate" then
    mkProcessingError "Audio Unclear"
      "Could not clearly understand the audio. Please speak closer to the microphone."
  else if includes errString "network" || includes errString "fetch" then
    mkProcessingError "Connection Error"
      "Network connection failed. Please check your internet."
  else
    mkProcessingError "Processing Failed"
      "An unexpected error occurred processing your request.".

(** *** The categories as the specification lists them *)

Inductive Category : Type :=
| SafetyFlag | RateLimit | UnclearInput | Network | Generic.

(** The description, lower-cased, shows the marks of the category. *)
Definition shows (c : Category) (errString : string) : bool :=
  match c with
  | SafetyFlag => includes errString "safety" || includes errString "blocked"
  | RateLimit => includes errString "429" || includes errString "resource exhausted"
  | UnclearInput =>
      includes errString "no response generated" || includes errString "candidate"
  | Network => includes errString "network" || includes errString "fetch"
  | Generic => true
  end.

Definition priority : list Category :=
  [SafetyFlag; RateLimit; UnclearInput; Network].

(** The first category of [priority] that the description shows, and
    [Generic] when it shows none. *)
Definition categorize (description : string) : Category :=
  match find (fun c => shows c (toLowerCase description)) priority with
  | Some c => c
  | None => Generic
  end.

(** What each component displays for a category. *)
Definition drafting_text (c : Category) : ProcessingError :=
  match c with
  | SafetyFlag =>
      mkProcessingError "Content Flagged"
        "The content was flagged by safety filters. Please try rephrasing."
  | RateLimit =>
      mkProcessingError "High Traffic"
        "Mozhi is very popular right now! Please wait a moment and try again."
  | UnclearInput =>
      mkProcessingError "Audio Unclear"
        "We couldn't hear you clearly. Please speak closer to the microphone."
  | Network =>
      mkProcessingError "Connection Error"
        "Please check your internet connection and try again."
  | Generic =>
      mkProcessingError "Processing Failed"
        "An unexpected error occurred. Please try again."
  end.

Definition research_text (c : Category) : ProcessingError :=
  match c with
  | SafetyFlag =>
      mkProcessingError "Content Flagged"
        "The content was flagged by safety filters. Please try rephrasing."
  | RateLimit =>
      mkProcessingError "System Busy"
        "System is busy. Please wait a moment and try again."
  | UnclearInput =>
      mkProcessingError "Audio Unclear"
        "Could not clearly understand the audio. Please speak closer to the microphone."
  | Network =>
      mkProcessingError "Connection Error"
        "Network connection failed. Please check your internet."
  | Generic =>
      mkProcessingError "Processing Failed"
        "An unexpected error occurred processing your request."
  end.

End RemoteErrors.

(** ** Sample sessions *)

Module Samples.

Section RecordingSamples.
Import Recording.

(** A chunk of [n + 1] zero bytes. *)
Definition sample (n : nat) : Blob :=
  mkBlob (repeat Byte.x00 (S n)) "audio/webm".

Definition refusing : Browser :=
  mkBrowser (QueryResolves prompt) (MediaRejects "NotAllowedError").

Definition willing : Browser :=
  mkBrowser (QueryResolves granted) StreamGranted.

Definition refused_once : Hook :=
  fst (startRecording (mkOptions true 16000%Z) refusing initial).

Definition recorded : Hook :=
  fst (run (mkOptions true 16000%Z)
         [CallStart willing; DataAvailable (sample 0); DataAvailable (sample 1)]
         initial).

End RecordingSamples.

Section LiveCoachSamples.
Import LiveCoach.

Definition sample_decode (s : string) : option (@AudioBuffer Q) :=
  if (s =? "AAAA")%string then Some (mkBuffer 1%Q) else None.

Definition connected_coach : @Coach Q :=
  coach (fst (run (fun _ => "frame"%string) sample_decode
                [ClickConnect StreamGranted 0%Q; RemoteOpen] start)).

Definition three_segments (s : string) : option (@AudioBuffer Q) :=
  if (s =? "one")%string then Some (mkBuffer 1.0%Q)
  else if (s =? "two")%string then Some (mkBuffer 1.5%Q)
  else if (s =? "three")%string then Some (mkBuffer 0.5%Q)
  else None.

(** The same three segments on binary64 floats, as the code runs them,
    for clocks starting at 0, at 3.25 and at one million seconds. *)
#[warnings="-inexact-float"] Definition three_segments_float (t0 : float) : list float :=
  play [((t0 + 0)%float, mkBuffer 1.0%float);
        ((t0 + 0.2)%float, mkBuffer 1.5%float);
        ((t0 + 5.0)%float, mkBuffer 0.5%float)] 0%float.

End LiveCoachSamples.

End Samples.

(** ** What useAudioRecording derives, and its cleanup *)

Module RecordingView.
Import Recording.

(** Line 216: [bufferCount >= MAX_RECORDING_CHUNKS]. *)
Definition isBufferFull (h : Hook) : bool :=
  MAX_RECORDING_CHUNKS <=? bufferCount h.

(** Line 215: [Math.min((bufferCount / MAX_RECORDING_CHUNKS) * 100, 100)],
    on exact rationals. *)
Definition bufferPercentage (h : Hook) : Q :=
  Qmin (inject_Z (Z.of_nat (bufferCount h))
        / inject_Z (Z.of_nat MAX_RECORDING_CHUNKS) * 100)%Q
       100%Q.

(** The cleanup of the mount effect, lines 61-73; it reads the refs as
    they are when the component unmounts. *)
Definition unmount (h : Hook) : list Eff :=
  (if timerIntervalRef h then [ClearInterval] else [])
  ++ (if animationFrameRef h then [CancelAnimationFrame] else [])
  ++ (if recordingContextRef h then [CloseAudioContext RecordingContext] else []).

(** The last [n] elements of a list. *)
Definition lastn {A : Type} (n : nat) (l : list A) : list A :=
  skipn (length l - n) l.

(** The exceptions that the [catch] block of [startRecording] takes for
    a refusal, line 179. *)
Definition is_permission_exception (name : string) : Prop :=
  name = "NotAllowedError"%string \/ name = "PermissionDeniedError"%string.

Definition is_close (c : Eff) : bool :=
  match c with CloseAudioContext _ => true | _ => false end.

Definition is_release (c : Eff) : bool :=
  match c with RecorderStop | TrackStop => true | _ => false end.

End RecordingView.

(** ** Reading a LiveCoach session *)

Module LiveCoachView.
Import LiveCoach.

Section WithNumbers.

Context {T : Type} `{Number T}.
Variable decodeSegment : string -> option (@AudioBuffer T).

(** The messages of a stream that carry audio data which decodes, as the
    pairs of clock reading and buffer that reach the scheduling lines. *)
Definition decodable (msgs : list (option string * T)) : list (T * AudioBuffer) :=
  flat_map (fun m =>
              match fst m with
              | Some base64Audio =>
                  if truthy base64Audio
                  then match decodeSegment base64Audio with
                       | Some audioBuffer => [(snd m, audioBuffer)]
                       | None => []
                       end
                  else []
              | None => []
              end) msgs.

(** [nextStartTimeRef] after the buffers of [segments] have been scheduled
    by lines 157-164. *)
Fixpoint advance (segments : list (T * AudioBuffer)) (nextStartTime : T) : T :=
  match segments with
  | [] => nextStartTime
  | (currentTime, buf) :: rest =>
      advance rest (snd (schedule currentTime buf nextStartTime))
  end.

Definition is_RemoteOpen (e : @Event T) : bool :=
  match e with RemoteOpen => true | _ => false end.

End WithNumbers.

End LiveCoachView.

(** ** The marks of the failure categories *)

Module RemoteErrorsView.
Import RemoteErrors.

Local Open Scope string_scope.

(** The texts that the [catch] blocks look for, by category. *)
Definition keywords (c : Category) : list string :=
  match c with
  | SafetyFlag => ["safety"; "blocked"]
  | RateLimit => ["429"; "resource exhausted"]
  | UnclearInput => ["no response generated"; "candidate"]
  | Network => ["network"; "fetch"]
  | Generic => []
  end.

(** The place of a category in the chain of tests. *)
Definition rank (c : Category) : nat :=
  match c with
  | SafetyFlag => 0
  | RateLimit => 1
  | UnclearInput => 2
  | Network => 3
  | Generic => 4
  end.

End RemoteErrorsView.

(** ** What the components display *)

Module Display.

Local Open Scope string_scope.

(** [Number.prototype.toString()] of a non-negative whole number. *)
Definition decimal (n : N) : string :=
  NilEmpty.string_of_uint (N.to_uint n).

Fixpoint fill (n : nat) (c : ascii) : string :=
  match n with
  | O => EmptyString
  | S n => String c (fill n c)
  end.

(** [String.prototype.padStart(targetLength, padString)] for a pad string
    of one character. *)
Definition padStart (targetLength : nat) (padChar : ascii) (s : string) : string :=
  fill (targetLength - String.length s) padChar ++ s.

(** [formatTime], as DraftingAssistant.tsx (lines 29-33), the research
    assistant (lines 8-12) and RecordingStatus.tsx (lines 14-18) each
    define it, on a whole number of seconds. *)
Definition formatTime (seconds : N) : string :=
  let mins := (seconds / 60)%N in
  let secs := (seconds mod 60)%N in
  decimal mins ++ ":" ++ padStart 2 "0" (decimal secs).

(** A string of exactly two characters. *)
Definition two_chars (s : string) : bool :=
  match s with
  | String _ (String _ EmptyString) => true
  | _ => false
  end.

(** The seconds field of [a] differs from that of every other number
    below 60. *)
Definition seconds_distinct (a : N) : bool :=
  forallb (fun j => implb (padStart 2 "0" (decimal a)
                           =? padStart 2 "0" (decimal (N.of_nat j)))
                          (a =? N.of_nat j)%N)
          (seq 0 60).

(** The largest whole number that JavaScript counts exactly. *)
Definition MAX_SAFE_INTEGER : N := 9007199254740991.

End Display.

(** ** useWaveform *)

Module Waveform.

Local Open Scope Q_scope.

(** The calls on the 2D context and on the frame scheduler. *)
Inductive Op : Type :=
| FillStyle (s : string)
| FillRect (x y w h : Q)
| LineWidth (w : Q)
| StrokeStyle (s : string)
| BeginPath
| MoveTo (x y : Q)
| LineTo (x y : Q)
| Stroke
| RequestFrame            (* requestAnimationFrame(draw) *)
| CancelFrame.            (* cancelAnimationFrame(id) *)

Record UseWaveformOptions : Type := mkOptions {
  color : string;
  backgroundColor : string
}.

(** Line 15: the defaults. *)
Definition defaults : UseWaveformOptions :=
  mkOptions "#4f46e5" "rgb(255, 255, 255)".

(** A canvas element: its size in pixels, and whether [getContext('2d')]
    gives a context. *)
Record Canvas : Type := mkCanvas {
  width : Z;
  height : Z;
  context2d : bool
}.

(** The refs of the hook. *)
Record Hook : Type := mkHook {
  canvasRef : option Canvas;
  animationFrameRef : bool;
  analyserRef : bool
}.

Definition initial : Hook := mkHook None false false.

(** An element of the [Uint8Array] as a number. *)
Definition sample (d : Byte.byte) : Q := inject_Z (Z.of_nat (Byte.to_nat d)).

(** The loop of lines 42-53, from index [i] and abscissa [x] on. *)
Fixpoint path (sliceWidth h : Q) (i : nat) (x : Q) (dataArray : list Byte.byte)
  : list Op :=
  match dataArray with
  | [] => []
  | d :: rest =>
      let v := sample d / 128 in
      let y := v * h / 2 in
      (if (i =? 0)%nat then MoveTo x y else LineTo x y)
      :: path sliceWidth h (S i) (x + sliceWidth) rest
  end.

(** [draw], lines 21-59.  [dataArray] is what [getByteTimeDomainData]
    writes; its length is [frequencyBinCount].  Coordinates are exact
    rationals. *)
Definition draw (opts : UseWaveformOptions) (dataArray : list Byte.byte)
    (k : Hook) : Hook * list Op :=
  if negb (analyserRef k) then (k, [])
  else
    match canvasRef k with
    | None => (k, [])
    | Some canvas =>
        if negb (context2d canvas) then (k, [])
        else
          let w := inject_Z (width canvas) in
          let h := inject_Z (height canvas) in
          let bufferLength := inject_Z (Z.of_nat (length dataArray)) in
          let sliceWidth := w / bufferLength in
          (mkHook (canvasRef k) true (analyserRef k),
           [FillStyle (backgroundColor opts); FillRect 0 0 w h;
            LineWidth 2; StrokeStyle (color opts); BeginPath]
           ++ path sliceWidth h 0 0 dataArray
           ++ [LineTo w (h / 2); Stroke; RequestFrame])
    end.

(** [startDrawing], lines 61-64. *)
Definition startDrawing (opts : UseWaveformOptions) (dataArray : list Byte.byte)
    (k : Hook) : Hook * list Op :=
  draw opts dataArray (mkHook (canvasRef k) (animationFrameRef k) true).

(** [stopDrawing], lines 66-81. *)
Definition stopDrawing (opts : UseWaveformOptions) (k : Hook) : Hook * list Op :=
  let c1 := if animationFrameRef k then [CancelFrame] else [] in
  let c2 := match canvasRef k with
            | Some canvas =>
                if context2d canvas
                then [FillStyle (backgroundColor opts);
                      FillRect 0 0 (inject_Z (width canvas))
                               (inject_Z (height canvas))]
                else []
            | None => []
            end in
  (mkHook (canvasRef k) false false, c1 ++ c2).

(** The points that a list of calls moves or draws to. *)
Fixpoint points (ops : list Op) : list (Q * Q) :=
  match ops with
  | [] => []
  | MoveTo x y :: rest => (x, y) :: points rest
  | LineTo x y :: rest => (x, y) :: points rest
  | _ :: rest => points rest
  end.

End Waveform.

(** * Properties *)

Module RecordingFacts.
Import Recording Samples.

Lemma splice_1_1 {A} (l : list A) :
  splice 1 1 l = match l with
                 | h :: _ :: rest => h :: rest
                 | _ => l
                 end.
Proof. destruct l as [|h [|x rest]]; reflexivity. Qed.

Lemma push_chunk_length C chunks d :
  1 <= C -> length chunks <= C -> length (push_chunk C chunks d) <= C.
Proof.
  intros HC Hlen. unfold push_chunk.
  destruct (Nat.ltb_spec C (length (chunks ++ [d]))) as [Hgt|Hle]; [|exact Hle].
  rewrite splice_1_1. rewrite length_app in Hgt. simpl in Hgt.
  destruct chunks as [|h [|x rest]]; simpl in *; try lia.
  rewrite length_app. simpl. lia.
Qed.

Lemma push_chunk_head C chunks d :
  hd_error (push_chunk C chunks d) = hd_error (chunks ++ [d]).
Proof.
  unfold push_chunk. destruct (C <? length (chunks ++ [d])); [|reflexivity].
  rewrite splice_1_1. destruct (chunks ++ [d]) as [|h [|x rest]]; reflexivity.
Qed.

Lemma hd_error_app_same {A} (l l' k : list A) :
  l <> [] -> hd_error l = hd_error l' -> hd_error (l ++ k) = hd_error (l' ++ k).
Proof.
  destruct l as [|a l]; [congruence|]. intros _.
  destruct l' as [|a' l']; simpl; congruence.
Qed.

Lemma push_chunk_nonempty C chunks d : push_chunk C chunks d <> [].
Proof.
  intros E. pose proof (push_chunk_head C chunks d) as Hh. rewrite E in Hh.
  destruct chunks; discriminate Hh.
Qed.

Lemma audioChunksRef_ondataavailable_at C d h :
  audioChunksRef (ondataavailable_at C d h) =
  if appended d then push_chunk C (audioChunksRef h) d else audioChunksRef h.
Proof. unfold ondataavailable_at, appended. destruct (0 <? size d); reflexivity. Qed.

Lemma bufferCount_ondataavailable_at C d h :
  bufferCount (ondataavailable_at C d h) =
  if appended d then length (push_chunk C (audioChunksRef h) d) else bufferCount h.
Proof. unfold ondataavailable_at, appended. destruct (0 <? size d); reflexivity. Qed.

(** The invariant of the rolling buffer at any capacity of at least one:
    the bound holds, the counter follows the length, and the head of the
    buffer is the head of everything appended so far. *)
Lemma feed_at_invariant C (HC : 1 <= C) :
  forall events h,
    length (audioChunksRef h) <= C ->
    bufferCount h = length (audioChunksRef h) ->
    length (audioChunksRef (feed_at C events h)) <= C
    /\ bufferCount (feed_at C events h) = length (audioChunksRef (feed_at C events h))
    /\ hd_error (audioChunksRef (feed_at C events h))
       = hd_error (audioChunksRef h ++ filter appended events).
Proof.
  unfold feed_at.
  induction events as [|d events IH]; intros h Hlen Hcount; simpl.
  - rewrite app_nil_r. auto.
  - specialize (IH (ondataavailable_at C d h)).
    rewrite audioChunksRef_ondataavailable_at, bufferCount_ondataavailable_at in IH.
    destruct (appended d) eqn:Hd.
    + destruct IH as (I1 & I2 & I3);
        [apply push_chunk_length; assumption | reflexivity |].
      repeat split; try assumption.
      rewrite I3.
      replace (audioChunksRef h ++ d :: filter appended events)
        with ((audioChunksRef h ++ [d]) ++ filter appended events)
        by (rewrite <- app_assoc; reflexivity).
      apply hd_error_app_same; [apply push_chunk_nonempty | apply push_chunk_head].
    + apply IH; assumption.
Qed.

(** ** C1 *)

(** C1: whatever chunk-ready events a session receives, the buffer never
    holds more than [MAX_RECORDING_CHUNKS] = 300 chunks, and as soon as one
    chunk has been appended, index 0 holds the first chunk appended in the
    session. *)
Theorem C1_buffer_bounded_header_kept (events : list Blob) (h : Hook) :
  let h' := feed events (reset_buffer h) in
  MAX_RECORDING_CHUNKS = 300
  /\ length (audioChunksRef h') <= MAX_RECORDING_CHUNKS
  /\ bufferCount h' = length (audioChunksRef h')
  /\ nth_error (audioChunksRef h') 0 = hd_error (filter appended events).
Proof.
  intros h'. split; [reflexivity|].
  assert (HC : 1 <= MAX_RECORDING_CHUNKS) by (unfold MAX_RECORDING_CHUNKS; lia).
  destruct (feed_at_invariant MAX_RECORDING_CHUNKS HC events (reset_buffer h))
    as (I1 & I2 & I3); [simpl; lia | reflexivity |].
  fold (feed events (reset_buffer h)) in I1, I2, I3. fold h' in I1, I2, I3.
  repeat split; try assumption.
Qed.

(** ** C3 *)

Lemma push_chunk_within C chunks d :
  length (chunks ++ [d]) <= C -> push_chunk C chunks d = chunks ++ [d].
Proof.
  intros Hle. unfold push_chunk.
  destruct (Nat.ltb_spec C (length (chunks ++ [d]))); [lia | reflexivity].
Qed.

Lemma push_chunk_over C chunks d :
  1 <= C -> C < length (chunks ++ [d]) ->
  exists header evicted rest,
    chunks ++ [d] = header :: evicted :: rest
    /\ push_chunk C chunks d = header :: rest.
Proof.
  intros HC Hgt. unfold push_chunk.
  destruct (Nat.ltb_spec C (length (chunks ++ [d]))); [|lia].
  rewrite splice_1_1.
  destruct (chunks ++ [d]) as [|x [|y rest]]; simpl in *; try lia.
  exists x, y, rest. split; reflexivity.
Qed.

(** C3: a chunk-ready event with data appends the chunk at the end; while
    the length stays within the capacity [C] nothing else happens, index 0
    is the same before and after the eviction test, and when the length
    exceeds [C] the element at index 1 is removed, the others keeping their
    order.  With [C = 5] and the chunks [h, c1 .. c7] pushed in this order
    the buffer ends as [h, c4, c5, c6, c7]. *)
Theorem C3_push_evicts_index_1
    (C : nat) (chunks : list Blob) (d : Blob)
    (h c1 c2 c3 c4 c5 c6 c7 : Blob) (hook : Hook) :
  1 <= C ->
  Forall (fun b => 0 < size b) [h; c1; c2; c3; c4; c5; c6; c7] ->
  (0 < size d ->
   audioChunksRef (ondataavailable_at C d hook)
   = push_chunk C (audioChunksRef hook) d)
  /\ (length (chunks ++ [d]) <= C -> push_chunk C chunks d = chunks ++ [d])
  /\ nth_error (push_chunk C chunks d) 0 = nth_error (chunks ++ [d]) 0
  /\ (C < length (chunks ++ [d]) ->
      exists header evicted rest,
        chunks ++ [d] = header :: evicted :: rest
        /\ push_chunk C chunks d = header :: rest)
  /\ audioChunksRef
       (feed_at 5 [h; c1; c2; c3; c4; c5; c6; c7] (reset_buffer hook))
     = [h; c4; c5; c6; c7].
Proof.
  intros HC Hall.
  split.
  { intros Hd. rewrite audioChunksRef_ondataavailable_at. unfold appended.
    rewrite (proj2 (Nat.ltb_lt 0 (size d)) Hd). reflexivity. }
  split; [apply push_chunk_within|].
  split; [apply (push_chunk_head C chunks d)|].
  split; [apply push_chunk_over; assumption|].
  repeat match goal with
         | H : Forall _ (_ :: _) |- _ => inversion H; subst; clear H
         end.
  unfold feed_at. simpl fold_left.
  repeat (rewrite audioChunksRef_ondataavailable_at; unfold appended;
          match goal with
          | H : 0 < size ?b |- context [0 <? size ?b] =>
              rewrite (proj2 (Nat.ltb_lt 0 (size b)) H)
          end).
  reflexivity.
Qed.

Lemma C3_push_evicts_index_1_witness :
  audioChunksRef
    (feed_at 5 (map sample [0; 1; 2; 3; 4; 5; 6; 7]) (reset_buffer initial))
  = map sample [0; 4; 5; 6; 7].
Proof.
  refine (proj2 (proj2 (proj2 (proj2 (C3_push_evicts_index_1 5 [] (sample 0)
            (sample 0) (sample 1) (sample 2) (sample 3)
            (sample 4) (sample 5) (sample 6) (sample 7) initial _ _))))).
  - lia.
  - repeat constructor.
Defined.

(** ** C10 *)

(** C10: a chunk-ready event whose data has size zero changes nothing:
    neither the chunk list nor the counter, and nothing is evicted. *)
Theorem C10_empty_chunk_is_noop (C : nat) (d : Blob) (h : Hook) (opts : UseAudioRecordingOptions) :
  size d = 0 ->
  ondataavailable_at C d h = h
  /\ ondataavailable d h = h
  /\ step opts (DataAvailable d) h = (h, []).
Proof.
  intros Hs.
  assert (E : forall C', ondataavailable_at C' d h = h).
  { intros C'. unfold ondataavailable_at. rewrite Hs. reflexivity. }
  repeat split; try apply E.
  simpl. destruct (mediaRecorderRef h); [|reflexivity].
  unfold ondataavailable. rewrite E. reflexivity.
Qed.

Lemma C10_empty_chunk_is_noop_witness :
  ondataavailable (mkBlob [] "audio/webm")
    (feed [sample 0; sample 1] (reset_buffer initial))
  = feed [sample 0; sample 1] (reset_buffer initial).
Proof.
  refine (proj1 (proj2 (C10_empty_chunk_is_noop 5 (mkBlob [] "audio/webm")
            (feed [sample 0; sample 1] (reset_buffer initial))
            (mkOptions true 16000%Z) _))).
  reflexivity.
Defined.

(** ** C4 *)

(** How a denial gets recorded: the permission query answers [denied], or
    [getUserMedia] rejects with one of the two permission exceptions. *)
Lemma denial_recorded_by_query opts env h :
  permissionDenied h = false ->
  permissions env = QueryResolves denied ->
  permissionDenied (fst (startRecording opts env h)) = true.
Proof. intros Hp Hq. unfold startRecording. rewrite Hp, Hq. reflexivity. Qed.

Lemma denial_recorded_by_rejection opts h :
  permissionDenied h = false ->
  permissionDenied
    (fst (startRecording opts
            (mkBrowser NoPermissionsApi (MediaRejects "NotAllowedError")) h))
  = true.
Proof. intros Hp. unfold startRecording. rewrite Hp. reflexivity. Qed.

Lemma startRecording_denied opts env h :
  permissionDenied h = true ->
  startRecording opts env h = (setErrorState (Some stillBlocked) h, []).
Proof. intros Hp. unfold startRecording. rewrite Hp. reflexivity. Qed.

Lemma onstop_frame r h :
  permissionDenied (fst (onstop r h)) = permissionDenied h
  /\ errorState (fst (onstop r h)) = errorState h
  /\ audioChunksRef (fst (onstop r h)) = audioChunksRef h.
Proof.
  unfold onstop.
  destruct (timerIntervalRef h); simpl;
    destruct (audioChunksRef h) eqn:E; simpl;
    destruct (rec_onRecordingStop r); simpl; auto.
Qed.

Lemma stopRecording_calls h :
  permissionDenied (fst (stopRecording h)) = permissionDenied h
  /\ filter is_GetUserMedia (snd (stopRecording h)) = []
  /\ filter is_RecordingStopped (snd (stopRecording h)) = [].
Proof.
  unfold stopRecording. destruct h; simpl.
  repeat match goal with
         | |- context [match ?o with Some _ => _ | None => _ end] =>
             destruct o; simpl
         | |- context [if ?b then _ else _] => destruct b; simpl
         end; auto.
Qed.

Lemma onstop_no_acquisition r h :
  filter is_GetUserMedia (snd (onstop r h)) = [].
Proof.
  unfold onstop.
  destruct (timerIntervalRef h); simpl;
    destruct (audioChunksRef h); simpl;
    destruct (rec_onRecordingStop r); simpl; auto.
Qed.

(** While the denial stands, no step of the hook acquires the device or
    lifts the denial. *)
Lemma step_denied opts a h :
  permissionDenied h = true ->
  permissionDenied (fst (step opts a h)) = true
  /\ filter is_GetUserMedia (snd (step opts a h)) = [].
Proof.
  intros Hp. destruct a; cbn [step].
  - rewrite startRecording_denied by assumption. simpl. auto.
  - destruct (stopRecording_calls h) as (E1 & E2 & _). rewrite E1, E2. auto.
  - auto.
  - destruct (mediaRecorderRef h); simpl; [|auto].
    unfold ondataavailable, ondataavailable_at.
    destruct (0 <? size d); simpl; auto.
  - destruct (mediaRecorderRef h) as [r|]; simpl; [|auto].
    destruct (onstop_frame r h) as (E1 & _). rewrite E1, onstop_no_acquisition. auto.
  - destruct (timerIntervalRef h); simpl; auto.
Qed.

Lemma run_denied opts actions :
  forall h,
    permissionDenied h = true ->
    permissionDenied (fst (run opts actions h)) = true
    /\ filter is_GetUserMedia (snd (run opts actions h)) = [].
Proof.
  induction actions as [|a actions IH]; intros h Hp; simpl; [auto|].
  destruct (step_denied opts a h Hp) as [S1 S2].
  destruct (step opts a h) as [h1 c1]. simpl in S1, S2.
  destruct (IH h1 S1) as [R1 R2].
  destruct (run opts actions h1) as [h2 c2]. simpl in *.
  split; [assumption|]. rewrite filter_app, S2, R2. reflexivity.
Qed.

(** C4: once [permissionDenied] is true, whatever the hook goes through
    afterwards, no call of [getUserMedia] is ever issued, the denial stays
    recorded, and each call of [startRecording] returns at once with the
    "Permission Still Blocked" error, which differs from the errors of a
    first refusal and of a device failure. *)
Theorem C4_denied_start_never_acquires
    (opts : UseAudioRecordingOptions) (h : Hook)
    (actions : list Action) (env : Browser) :
  permissionDenied h = true ->
  filter is_GetUserMedia (snd (run opts actions h)) = []
  /\ permissionDenied (fst (run opts actions h)) = true
  /\ startRecording opts env (fst (run opts actions h))
     = (setErrorState (Some stillBlocked) (fst (run opts actions h)), [])
  /\ errorState (fst (startRecording opts env (fst (run opts actions h))))
     = Some stillBlocked
  /\ stillBlocked <> queryDenied
  /\ stillBlocked <> accessDenied
  /\ stillBlocked <> micError.
Proof.
  intros Hp. destruct (run_denied opts actions h Hp) as [R1 R2].
  repeat split; try assumption; try discriminate.
  - apply startRecording_denied. assumption.
  - rewrite startRecording_denied by assumption. reflexivity.
Qed.

Lemma C4_denied_start_never_acquires_witness :
  filter is_GetUserMedia
    (snd (run (mkOptions true 16000%Z)
            [CallStart willing; CallClearError; CallStart willing; CallStop]
            refused_once)) = [].
Proof.
  refine (proj1 (C4_denied_start_never_acquires (mkOptions true 16000%Z)
            refused_once
            [CallStart willing; CallClearError; CallStart willing; CallStop]
            willing _)).
  reflexivity.
Defined.

(** ** C5 *)

Lemma newBlob_bytes parts type :
  blob_bytes (newBlob parts type) = concat (map blob_bytes parts).
Proof. unfold newBlob. simpl. apply flat_map_concat_map. Qed.

(** C5: the stop handler of a recorder whose consumer callback is supplied
    calls it exactly once, with the blob made of all buffered chunks in
    order, when the buffer holds a chunk, and not at all when the buffer
    is empty; with an empty buffer no recorder ever calls it, and the
    handler reports no error either way. *)
Theorem C5_finalization_iff_nonempty (r : MediaRecorder) (h : Hook) :
  rec_onRecordingStop r = true ->
  filter is_RecordingStopped (snd (onstop r h))
    = match audioChunksRef h with
      | [] => []
      | chunks => [RecordingStopped (newBlob chunks "audio/webm")]
      end
  /\ (forall b, In (RecordingStopped b) (snd (onstop r h))
                <-> audioChunksRef h <> []
                    /\ b = newBlob (audioChunksRef h) "audio/webm")
  /\ blob_bytes (newBlob (audioChunksRef h) "audio/webm")
     = concat (map blob_bytes (audioChunksRef h))
  /\ (forall r', audioChunksRef h = [] ->
                 filter is_RecordingStopped (snd (onstop r' h)) = [])
  /\ errorState (fst (onstop r h)) = errorState h
  /\ audioChunksRef (fst (onstop r h)) = audioChunksRef h.
Proof.
  intros Hr.
  assert (Hcalls : snd (onstop r h)
                   = (if timerIntervalRef h then [ClearInterval] else [])
                     ++ match audioChunksRef h with
                        | [] => []
                        | chunks => [RecordingStopped (newBlob chunks "audio/webm")]
                        end).
  { unfold onstop; cbv zeta. rewrite Hr.
    destruct h as [? ? ? ? ? ? chunks ? ? ? ? timer]; simpl.
    destruct timer, chunks; reflexivity. }
  split; [|split; [|split; [|split; [|split]]]].
  - rewrite Hcalls, filter_app.
    destruct (timerIntervalRef h), (audioChunksRef h); reflexivity.
  - intros b. rewrite Hcalls, in_app_iff. split.
    + intros [Hin|Hin].
      * destruct (timerIntervalRef h); simpl in Hin;
          intuition discriminate.
      * destruct (audioChunksRef h); simpl in Hin; [contradiction|].
        destruct Hin as [Hin|[]]. inversion Hin. split; [discriminate|reflexivity].
    + intros [Hne ->]. right.
      destruct (audioChunksRef h); [congruence|]. left. reflexivity.
  - apply newBlob_bytes.
  - intros r' He. unfold onstop; cbv zeta.
    destruct h as [? ? ? ? ? ? chunks ? ? ? ? timer]; simpl in *. subst chunks.
    destruct timer; reflexivity.
  - apply onstop_frame.
  - apply onstop_frame.
Qed.

Lemma C5_finalization_iff_nonempty_witness :
  filter is_RecordingStopped (snd (onstop (mkRecorder true) recorded))
  = [RecordingStopped (mkBlob [Byte.x00; Byte.x00; Byte.x00] "audio/webm")].
Proof.
  refine (proj1 (C5_finalization_iff_nonempty (mkRecorder true) recorded _)).
  reflexivity.
Defined.

(** Stopping through the hook: [stopRecording] stops the recorder and
    releases the tracks; the consumer is reached by the recorder's stop
    event only. *)
Lemma stop_then_event_finalizes :
  snd (run (mkOptions true 16000%Z) [CallStop; RecorderStopped] recorded)
  = [RecorderStop; TrackStop; ClearInterval;
     RecordingStopped (mkBlob [Byte.x00; Byte.x00; Byte.x00] "audio/webm")].
Proof. reflexivity. Qed.

Lemma silent_recording_signals_nothing :
  snd (run (mkOptions true 16000%Z)
         [CallStart willing; CallStop; RecorderStopped] initial)
  = [PermissionsQuery; GetUserMedia;
     NewAudioContext RecordingContext 16000%Z; NewMediaRecorder;
     RecorderStart 1000; SetInterval 1000;
     RecorderStop; TrackStop; ClearInterval].
Proof. reflexivity. Qed.

End RecordingFacts.

Module LiveCoachFacts.
Import LiveCoach Samples.

Section AnyNumbers.

Context {T : Type} `{Number T}.
Variable encodeFrame : list T -> string.
Variable decodeSegment : string -> option (@AudioBuffer T).

Lemma starts_app (k1 k2 : list (Call T)) :
  starts (k1 ++ k2) = starts k1 ++ starts k2.
Proof.
  induction k1 as [|k k1 IH]; [reflexivity|].
  destruct k; simpl; rewrite ?IH; reflexivity.
Qed.

Lemma receive_app (before after : list (option string * T)) :
  forall c,
    receive decodeSegment (before ++ after) c
    = (fst (receive decodeSegment after (fst (receive decodeSegment before c))),
       snd (receive decodeSegment before c)
       ++ snd (receive decodeSegment after (fst (receive decodeSegment before c)))).
Proof.
  induction before as [|[data now] before IH]; intros c; simpl.
  - destruct (receive decodeSegment after c); reflexivity.
  - destruct (onmessage decodeSegment data now c) as [c1 k1].
    rewrite IH.
    destruct (receive decodeSegment before c1) as [c2 k2]. simpl.
    rewrite app_assoc. reflexivity.
Qed.

(** A segment that decodes: one start, at the clock or at the running
    slot, whichever is later, and the slot moves by the duration. *)
Lemma onmessage_decoded (s : string) (buf : AudioBuffer) (now : T) (c : Coach) :
  truthy s = true -> outputNodeRef c = true -> decodeSegment s = Some buf ->
  onmessage decodeSegment (Some s) now c
  = (set_nextStartTime
       (num_add (if num_lt (nextStartTimeRef c) now then now
                 else nextStartTimeRef c) (duration buf)) c,
     [BufferSourceStart
        (if num_lt (nextStartTimeRef c) now then now else nextStartTimeRef c)]).
Proof.
  intros Hs Ho Hd. unfold onmessage, schedule. rewrite Hs, Ho, Hd. reflexivity.
Qed.

(** A segment that does not decode: the component is left as it was. *)
Lemma onmessage_undecodable (s : string) (now : T) (c : Coach) :
  decodeSegment s = None ->
  onmessage decodeSegment (Some s) now c
  = (c, if truthy s && outputNodeRef c
        then [ConsoleError "Error decoding audio chunk"] else []).
Proof.
  intros Hd. unfold onmessage. rewrite Hd.
  destruct (truthy s && outputNodeRef c); reflexivity.
Qed.

(** What the frame handler sends is fixed by its closure; the mute
    button changes the component's state and leaves the closure alone. *)
Lemma audioprocess_reads_closure (frame : list T) (l : Live) (cl : Closure) :
  onaudioprocess l = Some cl -> inputContextRef (coach l) = true ->
  snd (step encodeFrame decodeSegment (AudioProcess frame) l)
  = if cl_isMuted cl then []
    else [SendRealtimeInput "audio/pcm;rate=16000" (encodeFrame frame)].
Proof. intros Hh Hi. simpl. rewrite Hh, Hi. reflexivity. Qed.

Lemma toggleMute_keeps_closure (l : Live) :
  onaudioprocess (fst (step encodeFrame decodeSegment ClickMute l))
  = onaudioprocess l
  /\ isMuted (coach (fst (step encodeFrame decodeSegment ClickMute l)))
     = negb (isMuted (coach l)).
Proof. split; reflexivity. Qed.

Lemma receive_skip (bad : string) (now : T) (c : Coach)
    (after : list (option string * T)) :
  decodeSegment bad = None ->
  receive decodeSegment ((Some bad, now) :: after) c
  = (fst (receive decodeSegment after c),
     (if truthy bad && outputNodeRef c
      then [ConsoleError "Error decoding audio chunk"] else [])
     ++ snd (receive decodeSegment after c)).
Proof.
  intros Hd. cbn [receive]. rewrite (onmessage_undecodable bad now c Hd).
  destruct (receive decodeSegment after c); reflexivity.
Qed.

Lemma disconnect_calls (c : Coach) (k : Call T) :
  In k (snd (disconnect c)) ->
  k = CancelAnimationFrame
  \/ k = CloseAudioContext OutputContext
  \/ k = CloseAudioContext InputContext.
Proof.
  unfold disconnect. simpl.
  destruct (animationFrameRef c), (audioContextRef c), (inputContextRef c);
    simpl; intuition.
Qed.

End AnyNumbers.

(** ** C6 *)

(** C6, on the code: the frame handler reads the [isMuted] of the render
    that ran [connect].  After connecting unmuted and pressing the mute
    button, the flag is set and the next audio-process event still calls
    [sendRealtimeInput]. *)
Theorem C6_muted_frames_still_sent {T : Type} `{Number T}
    (encodeFrame : list T -> string)
    (decodeSegment : string -> option AudioBuffer)
    (level : T) (frame : list T) :
  isMuted (coach (fst (run encodeFrame decodeSegment
                         [ClickConnect StreamGranted level; RemoteOpen;
                          ClickMute; AudioProcess frame] start))) = true
  /\ snd (run encodeFrame decodeSegment
            [ClickConnect StreamGranted level; RemoteOpen;
             ClickMute; AudioProcess frame] start)
     = [GetUserMedia; NewAudioContext InputContext 16000%Z;
        RequestAnimationFrame; NewAudioContext OutputContext 24000%Z;
        LiveConnect; ConsoleLog "Live Session Opened";
        SendRealtimeInput "audio/pcm;rate=16000" (encodeFrame frame)].
Proof. split; reflexivity. Qed.

(** The other direction: a session connected while the flag was set keeps
    dropping frames after the flag has been cleared. *)
Lemma unmuting_does_not_resume {T : Type} `{Number T}
    (encodeFrame : list T -> string)
    (decodeSegment : string -> option AudioBuffer)
    (level : T) (frame : list T) :
  let events := [ClickConnect StreamGranted level; RemoteOpen; ClickMute;
                 ClickEnd;
                 ClickConnect StreamGranted level; RemoteOpen; ClickMute;
                 AudioProcess frame] in
  isMuted (coach (fst (run encodeFrame decodeSegment events start))) = false
  /\ filter is_send (snd (run encodeFrame decodeSegment events start)) = [].
Proof. split; reflexivity. Qed.

(** ** C7 *)

(** C7, on the code: [disconnect] cancels the pending frame, closes the
    output and the input context and resets the state to idle; it issues
    no other call.  After a session has been opened and disconnected, the
    microphone tracks are still live and the remote channel is still
    open. *)
Theorem C7_disconnect_leaves_microphone_and_channel {T : Type} `{Number T}
    (encodeFrame : list T -> string)
    (decodeSegment : string -> option AudioBuffer)
    (level : T) :
  let opened := run encodeFrame decodeSegment
                  [ClickConnect StreamGranted level; RemoteOpen] start in
  let closed := step encodeFrame decodeSegment ClickEnd (fst opened) in
  snd closed = [CancelAnimationFrame; CloseAudioContext OutputContext;
                CloseAudioContext InputContext]
  /\ status (coach (fst closed)) = idle
  /\ isConnected (coach (fst closed)) = false
  /\ held (snd opened) nothing_open = mkResources true true true true true
  /\ held (snd opened ++ snd closed) nothing_open
     = mkResources true false false true false
  /\ (forall c : Coach,
        ~ In TrackStop (snd (disconnect c))
        /\ ~ In SessionClose (snd (disconnect c))).
Proof.
  repeat split; try reflexivity.
  - intros Hin. apply disconnect_calls in Hin.
    destruct Hin as [E|[E|E]]; discriminate E.
  - intros Hin. apply disconnect_calls in Hin.
    destruct Hin as [E|[E|E]]; discriminate E.
Qed.

(** The teardown of the recording hook, by contrast, releases the tracks. *)
Lemma stopRecording_releases_tracks :
  let started := Recording.run (Recording.mkOptions true 16000%Z)
                   [Recording.CallStart willing]
                   Recording.initial in
  let stopped := Recording.stopRecording (fst started) in
  micTracksLive (held (snd started) nothing_open) = true
  /\ micTracksLive (held (snd started ++ snd stopped) nothing_open) = false.
Proof. split; reflexivity. Qed.

(** ** C8 *)

(** C8: a segment whose decoding fails leaves the component, and with it
    [nextStartTimeRef], untouched; it is logged, nothing is started for
    it, and the segments around it are scheduled exactly as if it had
    not arrived. *)
Theorem C8_decode_failure_isolated {T : Type} `{Number T}
    (decodeSegment : string -> option AudioBuffer)
    (bad : string) (now : T) (c : Coach)
    (before after : list (option string * T)) :
  decodeSegment bad = None ->
  fst (onmessage decodeSegment (Some bad) now c) = c
  /\ snd (onmessage decodeSegment (Some bad) now c)
     = (if truthy bad && outputNodeRef c
        then [ConsoleError "Error decoding audio chunk"] else [])
  /\ fst (receive decodeSegment (before ++ (Some bad, now) :: after) c)
     = fst (receive decodeSegment (before ++ after) c)
  /\ starts (snd (receive decodeSegment (before ++ (Some bad, now) :: after) c))
     = starts (snd (receive decodeSegment (before ++ after) c)).
Proof.
  intros Hd.
  pose proof (onmessage_undecodable decodeSegment bad now c Hd) as E.
  split; [rewrite E; reflexivity|]. split; [rewrite E; reflexivity|].
  rewrite (receive_app decodeSegment before ((Some bad, now) :: after)).
  rewrite (receive_app decodeSegment before after).
  rewrite (receive_skip decodeSegment bad now _ after Hd).
  cbn [fst snd]. split; [reflexivity|].
  rewrite !starts_app.
  destruct (truthy bad && outputNodeRef (fst (receive decodeSegment before c)));
    reflexivity.
Qed.

Lemma C8_decode_failure_isolated_witness :
  starts (snd (receive sample_decode
                 ([(Some "AAAA"%string, 0%Q)] ++ (Some "!!"%string, 0.2%Q) :: [(Some "AAAA"%string, 0.5%Q)])
                 connected_coach))
  = starts (snd (receive sample_decode
                   ([(Some "AAAA"%string, 0%Q)] ++ [(Some "AAAA"%string, 0.5%Q)])
                   connected_coach)).
Proof.
  refine (proj2 (proj2 (proj2 (C8_decode_failure_isolated sample_decode "!!"%string
            0.2%Q connected_coach [(Some "AAAA"%string, 0%Q)] [(Some "AAAA"%string, 0.5%Q)] _)))).
  reflexivity.
Defined.

(** ** C2 *)

Local Open Scope Q_scope.

Lemma num_lt_Q_spec (x y : Q) : BoolSpec (x < y) (y <= x) (num_lt x y).
Proof.
  simpl. destruct (Qle_bool y x) eqn:E; simpl; constructor.
  - apply Qle_bool_iff. assumption.
  - apply Qnot_le_lt. intros Hle. apply Qle_bool_iff in Hle. congruence.
Qed.

(** The scheduling step over exact times. *)
Lemma schedule_Q (now next : Q) (buf : AudioBuffer) :
  exists when,
    schedule now buf next = (when, when + duration buf)
    /\ (next < now -> when = now)
    /\ (now <= next -> when = next).
Proof.
  unfold schedule. destruct (num_lt_Q_spec next now) as [Hlt|Hle].
  - exists now. repeat split; auto. intros Hle. exfalso.
    apply (Qlt_irrefl now). apply Qle_lt_trans with next; assumption.
  - exists next. repeat split; auto. intros Hlt. exfalso.
    apply (Qlt_irrefl now). apply Qle_lt_trans with next; assumption.
Qed.

(** C2: a segment that decodes is started at [nextStartTimeRef], after
    that has been moved up to the device's clock when it was behind, and
    [nextStartTimeRef] then advances by the segment's duration.  For a
    session connected with the clock at [t0], segments of 1.0, 1.5 and
    0.5 seconds arriving at [t0], [t0 + 0.2] and [t0 + 5.0] start at
    [t0], [t0 + 1.0] and [t0 + 5.0]. *)
Theorem C2_playback_schedule
    (decodeSegment : string -> option AudioBuffer)
    (t0 level : Q) (s1 s2 s3 : string) :
  0 <= t0 ->
  truthy s1 = true -> truthy s2 = true -> truthy s3 = true ->
  decodeSegment s1 = Some (mkBuffer 1.0) ->
  decodeSegment s2 = Some (mkBuffer 1.5) ->
  decodeSegment s3 = Some (mkBuffer 0.5) ->
  (forall (s : string) (buf : AudioBuffer) (now : Q) (c : Coach),
      truthy s = true -> outputNodeRef c = true ->
      decodeSegment s = Some buf ->
      exists when,
        onmessage decodeSegment (Some s) now c
        = (set_nextStartTime (when + duration buf) c, [BufferSourceStart when])
        /\ (nextStartTimeRef c < now -> when = now)
        /\ (now <= nextStartTimeRef c -> when = nextStartTimeRef c))
  /\ Forall2 Qeq
       (starts (snd (receive decodeSegment
                       [(Some s1, t0 + 0); (Some s2, t0 + 0.2); (Some s3, t0 + 5.0)]
                       (coach (fst (connect StreamGranted level start))))))
       [t0; t0 + 1.0; t0 + 5.0].
Proof.
  intros Ht0 T1 T2 T3 D1 D2 D3. split.
  - intros s buf now c Hs Ho Hd.
    rewrite (onmessage_decoded decodeSegment s buf now c Hs Ho Hd).
    destruct (num_lt_Q_spec (nextStartTimeRef c) now) as [Hlt|Hle].
    + exists now. split; [reflexivity|]. split; [reflexivity|].
      intros Hle. exfalso. lra.
    + exists (nextStartTimeRef c). split; [reflexivity|].
      split; [|reflexivity]. intros Hlt. exfalso. lra.
  - cbn [receive].
    set (c0 := coach (fst (connect StreamGranted level start))).
    assert (O0 : outputNodeRef c0 = true) by reflexivity.
    assert (N0 : nextStartTimeRef c0 = 0) by reflexivity.
    rewrite (onmessage_decoded decodeSegment s1 _ (t0 + 0) c0 T1 O0 D1).
    rewrite N0.
    match goal with
    | |- context [set_nextStartTime ?n c0] => set (c1 := set_nextStartTime n c0)
    end.
    rewrite (onmessage_decoded decodeSegment s2 _ (t0 + 0.2) c1 T2 O0 D2).
    match goal with
    | |- context [set_nextStartTime ?n c1] => set (c2 := set_nextStartTime n c1)
    end.
    rewrite (onmessage_decoded decodeSegment s3 _ (t0 + 5.0) c2 T3 O0 D3).
    subst c2 c1. cbn [nextStartTimeRef set_nextStartTime duration].
    cbn [snd app starts].
    repeat match goal with
           | |- context [num_lt ?a ?b] =>
               destruct (num_lt_Q_spec a b)
           end;
      cbn [num_add Number_Q] in *;
      repeat constructor; lra.
Qed.

Lemma C2_playback_schedule_witness :
  Forall2 Qeq
    (starts (snd (receive three_segments
                    [(Some "one"%string, 2 + 0); (Some "two"%string, 2 + 0.2);
                     (Some "three"%string, 2 + 5.0)]
                    (coach (fst (connect StreamGranted 0 start))))))
    [2; 2 + 1.0; 2 + 5.0].
Proof.
  refine (proj2 (C2_playback_schedule three_segments 2 0 "one"%string "two"%string "three"%string
                   _ _ _ _ _ _ _)); try reflexivity.
  discriminate.
Defined.

Local Close Scope Q_scope.

Lemma three_segments_float_0 :
  three_segments_float 0%float = [0; 1; 5]%float.
Proof. reflexivity. Qed.

Lemma three_segments_float_3_25 :
  three_segments_float 3.25%float = [3.25; 4.25; 8.25]%float.
Proof. reflexivity. Qed.

Lemma three_segments_float_1e6 :
  three_segments_float 1000000%float = [1000000; 1000001; 1000005]%float.
Proof. reflexivity. Qed.

End LiveCoachFacts.

Module RemoteErrorsFacts.
Import RemoteErrors.

Local Open Scope string_scope.

Lemma categorize_unfold (description : string) :
  categorize description
  = let e := toLowerCase description in
    if shows SafetyFlag e then SafetyFlag
    else if shows RateLimit e then RateLimit
    else if shows UnclearInput e then UnclearInput
    else if shows Network e then Network
    else Generic.
Proof.
  unfold categorize, priority. cbn [find].
  destruct (shows SafetyFlag _); [reflexivity|].
  destruct (shows RateLimit _); [reflexivity|].
  destruct (shows UnclearInput _); [reflexivity|].
  destruct (shows Network _); reflexivity.
Qed.

(** Both components branch on the same tests, in the same order. *)
Lemma processAudioBlob_catch_by_category (description : string) :
  processAudioBlob_catch description = drafting_text (categorize description).
Proof.
  rewrite categorize_unfold. unfold processAudioBlob_catch. cbv zeta.
  cbn [shows].
  destruct (_ || _); [reflexivity|].
  destruct (_ || _); [reflexivity|].
  destruct (_ || _); [reflexivity|].
  destruct (_ || _); reflexivity.
Qed.

Lemma handleRecordingStop_catch_by_category (description : string) :
  handleRecordingStop_catch description = research_text (categorize description).
Proof.
  rewrite categorize_unfold. unfold handleRecordingStop_catch. cbv zeta.
  cbn [shows].
  destruct (_ || _); [reflexivity|].
  destruct (_ || _); [reflexivity|].
  destruct (_ || _); [reflexivity|].
  destruct (_ || _); reflexivity.
Qed.

(** ** C9 *)

(** C9: the failure of a one-shot request is put in the first of the
    categories safety-flag, rate-limit ("429", "resource exhausted"),
    unclear-input ("no response generated", "candidate"), network
    ("network", "fetch") whose marks its lower-cased description shows,
    and in the generic one when it shows none; both components display
    the text of that category, so a description showing the marks of
    several categories gets the earliest of them. *)
Theorem C9_failure_category_by_priority (description : string) :
  processAudioBlob_catch description = drafting_text (categorize description)
  /\ handleRecordingStop_catch description = research_text (categorize description)
  /\ (categorize description = SafetyFlag
      <-> shows SafetyFlag (toLowerCase description) = true)
  /\ (categorize description = RateLimit
      <-> shows SafetyFlag (toLowerCase description) = false
          /\ shows RateLimit (toLowerCase description) = true)
  /\ (categorize description = UnclearInput
      <-> shows SafetyFlag (toLowerCase description) = false
          /\ shows RateLimit (toLowerCase description) = false
          /\ shows UnclearInput (toLowerCase description) = true)
  /\ (categorize description = Network
      <-> shows SafetyFlag (toLowerCase description) = false
          /\ shows RateLimit (toLowerCase description) = false
          /\ shows UnclearInput (toLowerCase description) = false
          /\ shows Network (toLowerCase description) = true)
  /\ (categorize description = Generic
      <-> shows SafetyFlag (toLowerCase description) = false
          /\ shows RateLimit (toLowerCase description) = false
          /\ shows UnclearInput (toLowerCase description) = false
          /\ shows Network (toLowerCase description) = false)
  /\ categorize "Error: 429 network fetch failed, response BLOCKED" = SafetyFlag
  /\ categorize "TypeError: Failed to fetch (429 Resource Exhausted)" = RateLimit
  /\ categorize "Error: No candidate returned; network timeout" = UnclearInput
  /\ categorize "TypeError: NetworkError when attempting to fetch resource." = Network
  /\ categorize "Error: something else" = Generic.
Proof.
  split; [apply processAudioBlob_catch_by_category|].
  split; [apply handleRecordingStop_catch_by_category|].
  rewrite categorize_unfold. cbv zeta.
  generalize (shows SafetyFlag (toLowerCase description)),
             (shows RateLimit (toLowerCase description)),
             (shows UnclearInput (toLowerCase description)),
             (shows Network (toLowerCase description)).
  intros b1 b2 b3 b4.
  repeat split; try (vm_compute; reflexivity);
    destruct b1, b2, b3, b4; simpl; intuition discriminate.
Qed.

(** The titles tell the categories apart, so the displayed text
    determines the category. *)
Lemma drafting_text_injective (c c' : Category) :
  drafting_text c = drafting_text c' -> c = c'.
Proof. destruct c, c'; intros E; try reflexivity; discriminate E. Qed.

Lemma research_text_injective (c c' : Category) :
  research_text c = research_text c' -> c = c'.
Proof. destruct c, c'; intros E; try reflexivity; discriminate E. Qed.

Example includes_examples :
  includes "resource exhausted" "exhausted" = true
  /\ includes "abc" "" = true
  /\ includes "" "a" = false
  /\ includes "fetc" "fetch" = false
  /\ toLowerCase "BLOCKED by Safety" = "blocked by safety".
Proof. repeat split. Qed.

End RemoteErrorsFacts.

(** * Further properties of the recording hook *)

Module RecordingViewFacts.
Import Recording RecordingView Samples.

Lemma splice_1_1_tl {A} (a : A) (l : list A) : splice 1 1 (a :: l) = a :: tl l.
Proof. destruct l; reflexivity. Qed.

Lemma skipn_S_tl {A} (m : nat) (l : list A) : skipn (S m) l = tl (skipn m l).
Proof.
  change (S m) with (1 + m). rewrite <- skipn_skipn.
  destruct (skipn m l); reflexivity.
Qed.

Lemma push_chunk_lastn C (a : Blob) (r : list Blob) (d : Blob) :
  1 <= C ->
  push_chunk C (a :: lastn (C - 1) r) d = a :: lastn (C - 1) (r ++ [d]).
Proof.
  intros HC. unfold push_chunk, lastn.
  assert (Hlen : length ((a :: skipn (length r - (C - 1)) r) ++ [d])
                 = S (S (length r - (length r - (C - 1))))).
  { simpl. rewrite length_app, length_skipn. simpl. lia. }
  rewrite Hlen, length_app. simpl length.
  destruct (Nat.ltb_spec C (S (S (length r - (length r - (C - 1)))))) as [Hgt|Hle].
  - simpl app. rewrite splice_1_1_tl. f_equal.
    replace (length r + 1 - (C - 1)) with (S (length r - (C - 1))) by lia.
    rewrite skipn_S_tl, skipn_app.
    replace (length r - (C - 1) - length r) with 0 by lia. reflexivity.
  - replace (length r - (C - 1)) with 0 by lia.
    replace (length r + 1 - (C - 1)) with 0 by lia. reflexivity.
Qed.

Lemma fold_push_chunk_lastn C (a : Blob) (HC : 1 <= C) :
  forall ds r,
    fold_left (push_chunk C) ds (a :: lastn (C - 1) r)
    = a :: lastn (C - 1) (r ++ ds).
Proof.
  induction ds as [|d ds IH]; intros r; simpl.
  - rewrite app_nil_r. reflexivity.
  - rewrite push_chunk_lastn by assumption. rewrite IH, <- app_assoc. reflexivity.
Qed.

Lemma feed_at_chunks C :
  forall events h,
    audioChunksRef (feed_at C events h)
    = fold_left (push_chunk C) (filter appended events) (audioChunksRef h).
Proof.
  unfold feed_at. induction events as [|d events IH]; intros h; simpl; [reflexivity|].
  rewrite IH, RecordingFacts.audioChunksRef_ondataavailable_at.
  destruct (appended d); reflexivity.
Qed.

Lemma feed_at_contents C (HC : 1 <= C) (events : list Blob) (h : Hook) :
  audioChunksRef (feed_at C events (reset_buffer h))
  = match filter appended events with
    | [] => []
    | header :: rest => header :: lastn (C - 1) rest
    end.
Proof.
  rewrite feed_at_chunks. simpl audioChunksRef.
  destruct (filter appended events) as [|a rest]; [reflexivity|].
  simpl fold_left.
  assert (E : push_chunk C [] a = a :: lastn (C - 1) []).
  { unfold push_chunk. simpl. destruct C; [lia|reflexivity]. }
  rewrite E, fold_push_chunk_lastn by assumption. reflexivity.
Qed.

(** X1: The buffer of a session is the first chunk that was appended followed
    by the latest 299 of the chunks appended after it, in their order. *)
Theorem buffer_is_header_and_latest (events : list Blob) (h : Hook) :
  audioChunksRef (feed events (reset_buffer h))
  = match filter appended events with
    | [] => []
    | header :: rest => header :: lastn 299 rest
    end.
Proof.
  unfold feed. rewrite feed_at_contents by (unfold MAX_RECORDING_CHUNKS; lia).
  reflexivity.
Qed.

Lemma length_lastn {A} (n : nat) (l : list A) :
  length (lastn n l) = Nat.min n (length l).
Proof. unfold lastn. rewrite length_skipn. lia. Qed.

(** X2: The counter shown to the consumer is the number of chunks appended
    in the session, capped at 300, and the buffer is reported full exactly
    from the 300th appended chunk on. *)
Theorem bufferCount_is_capped_count (events : list Blob) (h : Hook) :
  bufferCount (feed events (reset_buffer h))
  = Nat.min (length (filter appended events)) MAX_RECORDING_CHUNKS
  /\ isBufferFull (feed events (reset_buffer h))
     = (MAX_RECORDING_CHUNKS <=? length (filter appended events)).
Proof.
  assert (HC : 1 <= MAX_RECORDING_CHUNKS) by (unfold MAX_RECORDING_CHUNKS; lia).
  destruct (RecordingFacts.feed_at_invariant MAX_RECORDING_CHUNKS HC events
              (reset_buffer h)) as (_ & Hcount & _); [simpl; lia | reflexivity |].
  fold (feed events (reset_buffer h)) in Hcount.
  assert (E : bufferCount (feed events (reset_buffer h))
              = Nat.min (length (filter appended events)) MAX_RECORDING_CHUNKS).
  { rewrite Hcount. unfold feed. rewrite (feed_at_contents _ HC).
    destruct (filter appended events) as [|a rest]; [reflexivity|].
    simpl length. rewrite length_lastn. unfold MAX_RECORDING_CHUNKS. lia. }
  split; [exact E|].
  unfold isBufferFull. rewrite E.
  destruct (Nat.leb_spec MAX_RECORDING_CHUNKS (length (filter appended events)));
    [apply Nat.leb_le | apply Nat.leb_gt]; lia.
Qed.

Lemma inject_nat_le (n m : nat) :
  n <= m <-> (inject_Z (Z.of_nat n) <= inject_Z (Z.of_nat m))%Q.
Proof. rewrite <- Zle_Qle. apply Nat2Z.inj_le. Qed.

Lemma percentage_cases (h : Hook) :
  (isBufferFull h = true /\ (bufferPercentage h == 100)%Q)
  \/ (isBufferFull h = false
      /\ (bufferPercentage h == inject_Z (Z.of_nat (bufferCount h)) * (1 # 3))%Q
      /\ (bufferPercentage h < 100)%Q).
Proof.
  unfold bufferPercentage, isBufferFull.
  change (inject_Z (Z.of_nat MAX_RECORDING_CHUNKS)) with 300%Q.
  pose proof (inject_nat_le MAX_RECORDING_CHUNKS (bufferCount h)) as Hq.
  change (inject_Z (Z.of_nat MAX_RECORDING_CHUNKS)) with 300%Q in Hq.
  generalize dependent (inject_Z (Z.of_nat (bufferCount h))). intros x Hq.
  assert (Hdiv : (x / 300 * 100 == x * (1 # 3))%Q) by field.
  destruct (Q.min_spec (x / 300 * 100) 100) as [[Hlt E]|[Hle E]];
    destruct (Nat.leb_spec MAX_RECORDING_CHUNKS (bufferCount h)) as [Hn|Hn].
  - apply Hq in Hn. exfalso. rewrite Hdiv in Hlt. lra.
  - right. rewrite E. rewrite Hdiv in Hlt. rewrite Hdiv.
    repeat split; lra.
  - left. split; [reflexivity | exact E].
  - exfalso. assert (~ (300 <= x)%Q) by (intros Hx; apply Hq in Hx; lia).
    rewrite Hdiv in Hle. lra.
Qed.

(** X3: The fill level shown to the consumer lies between 0 and 100, reaches
    100 exactly when the buffer is reported full, and never decreases
    when the counter grows. *)
Theorem bufferPercentage_follows_counter (h h' : Hook) :
  (0 <= bufferPercentage h)%Q
  /\ (bufferPercentage h <= 100)%Q
  /\ ((bufferPercentage h == 100)%Q <-> isBufferFull h = true)
  /\ (bufferCount h <= bufferCount h' ->
      (bufferPercentage h <= bufferPercentage h')%Q).
Proof.
  pose proof (proj1 (inject_nat_le 0 (bufferCount h)) (Nat.le_0_l _)) as Hpos.
  change (inject_Z (Z.of_nat 0)) with 0%Q in Hpos.
  pose proof (inject_nat_le (bufferCount h) (bufferCount h')) as Hmono.
  pose proof (percentage_cases h) as Hc.
  pose proof (percentage_cases h') as Hc'.
  unfold isBufferFull in *.
  destruct (Nat.leb_spec MAX_RECORDING_CHUNKS (bufferCount h)) as [Hn|Hn];
    destruct (Nat.leb_spec MAX_RECORDING_CHUNKS (bufferCount h')) as [Hn'|Hn'];
    revert Hpos Hmono Hc Hc';
    generalize (bufferPercentage h) (bufferPercentage h')
               (inject_Z (Z.of_nat (bufferCount h)))
               (inject_Z (Z.of_nat (bufferCount h')));
    intros p p' x x' Hpos Hmono Hc Hc';
    destruct Hc as [[F E]|(F & E & L)]; try discriminate F;
    destruct Hc' as [[F' E']|(F' & E' & L')]; try discriminate F';
    (split; [lra|]); (split; [lra|]);
    (split; [split; intros; (reflexivity || assumption || discriminate || (exfalso; lra))|]);
    intros Hle; pose proof (proj1 Hmono Hle) as Hx; try lra; exfalso; lia.
Qed.

Lemma audioChunksRef_stopRecording (h : Hook) :
  audioChunksRef (fst (stopRecording h)) = audioChunksRef h.
Proof.
  unfold stopRecording. destruct h; simpl.
  repeat match goal with
         | |- context [match ?o with Some _ => _ | None => _ end] =>
             destruct o; simpl
         | |- context [if ?b then _ else _] => destruct b; simpl
         end; reflexivity.
Qed.

Lemma getAudioBlob_chunks (h h' : Hook) :
  audioChunksRef h' = audioChunksRef h -> getAudioBlob h' = getAudioBlob h.
Proof. unfold getAudioBlob. intros ->. reflexivity. Qed.

(** X4: The blob that [getAudioBlob] offers for a retry is the one the stop
    handler hands to the consumer: there is one exactly when the handler
    calls the consumer, it is the same blob, and neither the handler nor
    [stopRecording] changes it. *)
Theorem retry_blob_is_finalized_blob (r : MediaRecorder) (h : Hook) :
  rec_onRecordingStop r = true ->
  (forall b, getAudioBlob h = Some b
             <-> In (RecordingStopped b) (snd (onstop r h)))
  /\ (getAudioBlob h = None <-> audioChunksRef h = [])
  /\ getAudioBlob (fst (onstop r h)) = getAudioBlob h
  /\ getAudioBlob (fst (stopRecording h)) = getAudioBlob h.
Proof.
  intros Hr. split; [|split; [|split]].
  - intros b. unfold getAudioBlob, onstop; cbv zeta. rewrite Hr.
    destruct h as [? ? ? ? ? ? chunks ? ? ? ? timer]; simpl.
    destruct timer, chunks; simpl; split;
      try discriminate; try tauto;
      try (intros E; injection E as <-; tauto);
      try (intros [E|[E|[]]]; try discriminate E; injection E as <-; reflexivity);
      try (intros [E|[]]; try discriminate E; injection E as <-; reflexivity).
  - unfold getAudioBlob. destruct (audioChunksRef h); split;
      intros E; try reflexivity; discriminate E.
  - apply getAudioBlob_chunks. apply RecordingFacts.onstop_frame.
  - apply getAudioBlob_chunks. apply audioChunksRef_stopRecording.
Qed.

Lemma retry_blob_is_finalized_blob_witness :
  getAudioBlob (fst (stopRecording recorded)) = getAudioBlob recorded.
Proof.
  refine (proj2 (proj2 (proj2
            (retry_blob_is_finalized_blob (mkRecorder true) recorded _)))).
  reflexivity.
Defined.

(** X6: When the permission query answers [denied], [startRecording] stops
    there: the user is not prompted ([getUserMedia] is not called), the
    previous recording is kept, the denial is recorded, and from then on
    every call is answered with the still-blocked error. *)
Theorem denied_query_stops_before_prompt
    (opts : UseAudioRecordingOptions) (env env' : Browser) (h : Hook) :
  permissionDenied h = false ->
  permissions env = QueryResolves denied ->
  snd (startRecording opts env h) = [PermissionsQuery]
  /\ permissionDenied (fst (startRecording opts env h)) = true
  /\ errorState (fst (startRecording opts env h)) = Some queryDenied
  /\ isRecording (fst (startRecording opts env h)) = isRecording h
  /\ audioChunksRef (fst (startRecording opts env h)) = audioChunksRef h
  /\ startRecording opts env' (fst (startRecording opts env h))
     = (setErrorState (Some stillBlocked) (fst (startRecording opts env h)), []).
Proof.
  intros Hp Hq.
  assert (E : startRecording opts env h
              = (setErrorState (Some queryDenied) (setPermissionDenied true h),
                 [PermissionsQuery]))
    by (unfold startRecording; rewrite Hp, Hq; reflexivity).
  rewrite E. cbn [fst snd]. repeat split.
Qed.

Lemma denied_query_stops_before_prompt_witness :
  snd (startRecording (mkOptions true 16000%Z)
         (mkBrowser (QueryResolves denied) StreamGranted) initial)
  = [PermissionsQuery].
Proof.
  refine (proj1 (denied_query_stops_before_prompt (mkOptions true 16000%Z)
            (mkBrowser (QueryResolves denied) StreamGranted) willing initial _ _));
    reflexivity.
Defined.

Lemma startRecording_rejected opts perms name h :
  permissionDenied h = false ->
  perms <> QueryResolves denied ->
  exists pre,
    startRecording opts (mkBrowser perms (MediaRejects name)) h
    = (fst (startRecording_catch name (setErrorState None h)),
       pre ++ GetUserMedia :: snd (startRecording_catch name (setErrorState None h))).
Proof.
  intros Hp Hq. unfold startRecording. rewrite Hp. simpl permissions.
  destruct perms as [|[]|]; try congruence; unfold startRecording_acquire; simpl;
    destruct (startRecording_catch name (setErrorState None h)) as [h1 k1]; simpl.
  - exists []. reflexivity.
  - exists [PermissionsQuery]. reflexivity.
  - exists [PermissionsQuery]. reflexivity.
  - exists [PermissionsQuery;
            ConsoleLog "Permission query not supported, attempting direct access"].
    reflexivity.
Qed.

(** X7: A rejection of [getUserMedia] is recorded as a durable denial exactly
    when the exception is named NotAllowedError or PermissionDeniedError;
    any other rejection is reported as a microphone error, keeps the
    previous recording and the recording flag, and leaves the next call
    free to acquire the device, which then starts a session. *)
Theorem rejection_is_durable_iff_permission_exception
    (opts : UseAudioRecordingOptions) (perms : PermissionsApi)
    (name : string) (h : Hook) :
  permissionDenied h = false ->
  perms <> QueryResolves denied ->
  let failed := fst (startRecording opts (mkBrowser perms (MediaRejects name)) h) in
  let retried := fst (startRecording opts (mkBrowser perms StreamGranted) failed) in
  (permissionDenied failed = true <-> is_permission_exception name)
  /\ (is_permission_exception name -> errorState failed = Some accessDenied)
  /\ (~ is_permission_exception name ->
      errorState failed = Some micError
      /\ isRecording retried = true
      /\ errorState retried = None
      /\ audioChunksRef retried = [])
  /\ isRecording failed = isRecording h
  /\ audioChunksRef failed = audioChunksRef h.
Proof.
  intros Hp Hq failed retried. subst retried failed.
  destruct (startRecording_rejected opts perms name h Hp Hq) as [pre E].
  rewrite E. cbn [fst]. unfold startRecording_catch, is_permission_exception.
  destruct (String.eqb_spec name "NotAllowedError") as [E1|N1];
    [|destruct (String.eqb_spec name "PermissionDeniedError") as [E2|N2]];
    cbn [orb fst].
  - split; [split; [auto | reflexivity]|].
    split; [reflexivity|].
    split; [intros Hn; exfalso; apply Hn; auto|].
    split; reflexivity.
  - split; [split; [auto | reflexivity]|].
    split; [reflexivity|].
    split; [intros Hn; exfalso; apply Hn; auto|].
    split; reflexivity.
  - split; [split; [cbn; rewrite Hp; discriminate | intros [|]; congruence]|].
    split; [intros [|]; congruence|].
    split; [|split; reflexivity].
    intros _. split; [reflexivity|].
    unfold startRecording. cbn [permissionDenied setErrorState]. rewrite Hp.
    cbn [permissions].
    destruct perms as [|[]|]; try congruence; repeat split.
Qed.

Lemma rejection_is_durable_iff_permission_exception_witness :
  permissionDenied
    (fst (startRecording (mkOptions true 16000%Z)
            (mkBrowser QueryThrows (MediaRejects "NotFoundError")) initial))
  = true
  <-> is_permission_exception "NotFoundError".
Proof.
  refine (proj1 (rejection_is_durable_iff_permission_exception
            (mkOptions true 16000%Z) QueryThrows "NotFoundError" initial _ _)).
  - reflexivity.
  - discriminate.
Defined.

(** X8: [stopRecording] can be repeated: a second call stops nothing, releases
    nothing and changes nothing; at most it clears the canvas again. *)
Theorem stopRecording_twice (h : Hook) :
  stopRecording (fst (stopRecording h))
  = (fst (stopRecording h), if canvasRef h then [ClearCanvas] else [])
  /\ isRecording (fst (stopRecording h)) = isRecording h
                                           && match mediaRecorderRef h with
                                              | Some _ => false
                                              | None => true
                                              end
  /\ timerIntervalRef (fst (stopRecording h)) = false.
Proof.
  unfold stopRecording. destruct h as [rec ? ? ? ? [r|] ? ? ? cv af tm]; simpl;
    destruct rec, tm, af, cv; simpl; repeat split.
Qed.








Lemma step_never_closes opts a h :
  filter is_close (snd (step opts a h)) = [].
Proof.
  destruct a; cbn [step].
  - unfold startRecording, startRecording_acquire, startRecording_catch.
    destruct (permissionDenied h); [reflexivity|].
    destruct (permissions env) as [|[]|], (getUserMedia env) as [|name];
      simpl; try reflexivity;
      destruct (_ || _); reflexivity.
  - unfold stopRecording. destruct h; simpl.
    repeat match goal with
           | |- context [match ?o with Some _ => _ | None => _ end] =>
               destruct o; simpl
           | |- context [if ?b then _ else _] => destruct b; simpl
           end; reflexivity.
  - reflexivity.
  - destruct (mediaRecorderRef h); reflexivity.
  - destruct (mediaRecorderRef h) as [r|]; [|reflexivity].
    unfold onstop; cbv zeta. destruct h as [? ? ? ? ? ? chunks ? ? ? ? tm]; simpl.
    destruct tm, chunks, (rec_onRecordingStop r); reflexivity.
  - destruct (timerIntervalRef h); reflexivity.
Qed.

(** X10: No action of the hook closes the audio context that a successful
    start opens; only the unmount cleanup closes the one held, and that
    cleanup neither stops the recorder nor releases the tracks. *)
Theorem recording_context_closed_only_at_unmount
    (opts : UseAudioRecordingOptions) (actions : list Action) (h : Hook) :
  filter is_close (snd (run opts actions h)) = []
  /\ filter is_release (unmount h) = []
  /\ (forall env,
        permissionDenied h = false ->
        permissions env <> QueryResolves denied ->
        getUserMedia env = StreamGranted ->
        In (NewAudioContext RecordingContext (sampleRate opts))
           (snd (startRecording opts env h))
        /\ In (CloseAudioContext RecordingContext)
              (unmount (fst (startRecording opts env h)))).
Proof.
  split; [|split].
  - revert h. induction actions as [|a actions IH]; intros h; simpl; [reflexivity|].
    pose proof (step_never_closes opts a h) as S1.
    destruct (step opts a h) as [h1 k1]. simpl in S1.
    specialize (IH h1). destruct (run opts actions h1) as [h2 k2]. simpl in *.
    rewrite filter_app, S1, IH. reflexivity.
  - unfold unmount.
    destruct (timerIntervalRef h), (animationFrameRef h), (recordingContextRef h);
      reflexivity.
  - intros env Hp Hq Hg. unfold startRecording. rewrite Hp.
    destruct env as [perms media]. simpl in *. subst media.
    destruct perms as [|[]|]; try congruence; unfold unmount; simpl;
      split; try (destruct (animationFrameRef h); simpl); intuition.
Qed.

(** X5: The chunk that the recorder delivers between [stopRecording] and its
    stop event is part of the finalized recording: the consumer receives
    the buffer with that chunk appended. *)
Theorem final_chunk_is_finalized
    (opts : UseAudioRecordingOptions) (r : MediaRecorder) (d : Blob) (h : Hook) :
  mediaRecorderRef h = Some r ->
  rec_onRecordingStop r = true ->
  0 < size d ->
  filter is_RecordingStopped
    (snd (run opts [CallStop; DataAvailable d; RecorderStopped] h))
  = [RecordingStopped
       (newBlob (push_chunk MAX_RECORDING_CHUNKS (audioChunksRef h) d)
                "audio/webm")].
Proof.
  intros Hr Hc Hd. cbn [run step].
  destruct (RecordingFacts.stopRecording_calls h) as (_ & _ & S3).
  pose proof (audioChunksRef_stopRecording h) as S4.
  assert (S5 : mediaRecorderRef (fst (stopRecording h)) = Some r).
  { rewrite <- Hr. unfold stopRecording.
    destruct h as [rec ? ? ? ? [r0|] ? ? ? cv af tm]; simpl;
      destruct rec, tm, af, cv; reflexivity. }
  destruct (stopRecording h) as [h1 k1]. cbn [fst snd] in *.
  rewrite S5.
  assert (S6 : mediaRecorderRef (ondataavailable d h1) = Some r
               /\ audioChunksRef (ondataavailable d h1)
                  = push_chunk MAX_RECORDING_CHUNKS (audioChunksRef h) d).
  { unfold ondataavailable, ondataavailable_at.
    rewrite (proj2 (Nat.ltb_lt 0 (size d)) Hd), S4. split; [exact S5 | reflexivity]. }
  destruct S6 as [S6 S7]. rewrite S6.
  set (h2 := ondataavailable d h1) in *.
  assert (S8 : filter is_RecordingStopped (snd (onstop r h2))
               = [RecordingStopped (newBlob (audioChunksRef h2) "audio/webm")]).
  { pose proof (RecordingFacts.push_chunk_nonempty MAX_RECORDING_CHUNKS
                  (audioChunksRef h) d) as Hne. rewrite <- S7 in Hne.
    unfold onstop; cbv zeta. rewrite Hc.
    destruct h2 as [? ? ? ? ? ? chunks ? ? ? ? tm]; simpl in *.
    destruct tm, chunks; try congruence; reflexivity. }
  destruct (onstop r h2) as [h3 k3]. cbn [fst snd] in *.
  rewrite !filter_app, S3, S8, S7. reflexivity.
Qed.

Lemma final_chunk_is_finalized_witness :
  filter is_RecordingStopped
    (snd (run (mkOptions true 16000%Z)
            [CallStop; DataAvailable (sample 2); RecorderStopped] recorded))
  = [RecordingStopped
       (newBlob (push_chunk MAX_RECORDING_CHUNKS (audioChunksRef recorded) (sample 2))
                "audio/webm")].
Proof.
  refine (final_chunk_is_finalized (mkOptions true 16000%Z) (mkRecorder true)
            (sample 2) recorded _ _ _).
  - reflexivity.
  - reflexivity.
  - unfold size, sample. simpl. lia.
Defined.

End RecordingViewFacts.

(** * Further properties of the live session *)

Module LiveCoachViewFacts.
Import LiveCoach LiveCoachView Samples.

Section AnyNumbers.

Context {T : Type} `{Number T}.
Variable encodeFrame : list T -> string.
Variable decodeSegment : string -> option (@AudioBuffer T).

(** X11: [disconnect] can be repeated, and called on a component that never
    connected: the second call issues no call at all and leaves the state
    as the first one left it, idle and not connected. *)
Theorem disconnect_twice (c : Coach) :
  disconnect (fst (disconnect c)) = (fst (disconnect c), [])
  /\ status (fst (disconnect c)) = idle
  /\ isConnected (fst (disconnect c)) = false
  /\ disconnect (T := T) initial = (initial, []).
Proof. repeat split. Qed.

Lemma step_status (e : Event) (l : Live) :
  status (coach l) <> error ->
  status (coach (fst (step encodeFrame decodeSegment e l))) <> error.
Proof.
  intros Hs. destruct e; cbn [step].
  - unfold connect. destruct media; cbn; discriminate.
  - exact Hs.
  - cbn. discriminate.
  - destruct (animationFrameRef (coach l)); [|exact Hs].
    unfold updateVolume. destruct (analyserRef (coach l)); exact Hs.
  - destruct (callbacks l); [cbn; discriminate | exact Hs].
  - destruct (callbacks l); [|exact Hs].
    unfold onmessage. destruct data as [s|]; [|exact Hs].
    destruct (truthy s && outputNodeRef (coach l)); [|exact Hs].
    destruct (decodeSegment s); exact Hs.
  - destruct (callbacks l); [cbn; discriminate | exact Hs].
  - destruct (callbacks l); [cbn; discriminate | exact Hs].
  - destruct (onaudioprocess l); [|exact Hs].
    destruct (inputContextRef (coach l)); exact Hs.
Qed.

(** X12: The status [error] is never what an event leaves behind: a failed
    connect and a remote error both end in the teardown, which sets the
    status to idle. *)
Theorem status_is_never_left_at_error (events : list Event) :
  status (coach (fst (run encodeFrame decodeSegment events start))) <> error
  /\ (forall (l : Live) (name : string) (level : T),
        status (coach (fst (connect (MediaRejects name) level l))) = idle
        /\ isConnected (coach (fst (connect (MediaRejects name) level l))) = false)
  /\ (forall c : Coach, status (fst (onerror c)) = idle).
Proof.
  split; [|split; [intros; split; reflexivity | reflexivity]].
  assert (G : forall evs l, status (coach l) <> error ->
              status (coach (fst (run encodeFrame decodeSegment evs l))) <> error).
  { induction evs as [|e evs IH]; intros l Hs; simpl; [exact Hs|].
    pose proof (step_status e l Hs) as H1.
    destruct (step encodeFrame decodeSegment e l) as [l1 k1]. simpl in H1.
    specialize (IH l1 H1).
    destruct (run encodeFrame decodeSegment evs l1) as [l2 k2]. exact IH. }
  apply G. discriminate.
Qed.

Lemma play_app (a b : list (T * AudioBuffer)) :
  forall next, play (a ++ b) next = play a next ++ play b (advance a next).
Proof.
  induction a as [|[now buf] a IH]; intros next; simpl; [reflexivity|].
  rewrite IH. reflexivity.
Qed.

Lemma advance_app (a b : list (T * AudioBuffer)) :
  forall next, advance (a ++ b) next = advance b (advance a next).
Proof.
  induction a as [|[now buf] a IH]; intros next; simpl; [reflexivity|].
  apply IH.
Qed.

Lemma onmessage_view (data : option string) (now : T) (c : Coach) :
  outputNodeRef c = true ->
  starts (snd (onmessage decodeSegment data now c))
  = play (decodable decodeSegment [(data, now)]) (nextStartTimeRef c)
  /\ nextStartTimeRef (fst (onmessage decodeSegment data now c))
     = advance (decodable decodeSegment [(data, now)]) (nextStartTimeRef c)
  /\ outputNodeRef (fst (onmessage decodeSegment data now c)) = true.
Proof.
  intros Ho. unfold onmessage, decodable. simpl.
  destruct data as [s|]; [|auto].
  rewrite Ho. destruct (truthy s); simpl; [|auto].
  destruct (decodeSegment s) as [buf|]; simpl; auto.
Qed.

(** X13: The start times of a stream of messages are those of its decodable
    segments alone, scheduled one after the other from the current
    [nextStartTimeRef]; messages without data or with data that does not
    decode play no part in them. *)
Theorem receive_schedules_decodable (msgs : list (option string * T)) (c : Coach) :
  outputNodeRef c = true ->
  starts (snd (receive decodeSegment msgs c))
  = play (decodable decodeSegment msgs) (nextStartTimeRef c)
  /\ nextStartTimeRef (fst (receive decodeSegment msgs c))
     = advance (decodable decodeSegment msgs) (nextStartTimeRef c)
  /\ outputNodeRef (fst (receive decodeSegment msgs c)) = true.
Proof.
  revert c. induction msgs as [|[data now] msgs IH]; intros c Ho.
  - simpl. auto.
  - assert (Ed : decodable decodeSegment ((data, now) :: msgs)
                 = decodable decodeSegment [(data, now)]
                   ++ decodable decodeSegment msgs)
      by (unfold decodable; simpl; rewrite app_nil_r; reflexivity).
    rewrite Ed. cbn [receive].
    destruct (onmessage_view data now c Ho) as (V1 & V2 & V3).
    destruct (onmessage decodeSegment data now c) as [c1 k1]. cbn [fst snd] in *.
    destruct (IH c1 V3) as (I1 & I2 & I3).
    destruct (receive decodeSegment msgs c1) as [c2 k2]. cbn [fst snd] in *.
    rewrite LiveCoachFacts.starts_app, play_app, advance_app, V1, I1, I2, V2.
    auto.
Qed.


Lemma with_coach_callbacks (l : Live) (r : Coach * list (Call T)) :
  onaudioprocess (fst (with_coach l r)) = onaudioprocess l.
Proof. reflexivity. Qed.

Lemma step_before_open (e : Event) (l : Live) :
  is_RemoteOpen e = false ->
  onaudioprocess l = None ->
  onaudioprocess (fst (step encodeFrame decodeSegment e l)) = None
  /\ filter is_send (snd (step encodeFrame decodeSegment e l)) = [].
Proof.
  intros He Hl. destruct e; try discriminate He; cbn [step].
  - unfold connect. destruct media; cbn.
    + unfold updateVolume. cbn. auto.
    + rewrite Hl. split; [reflexivity|].
      destruct (animationFrameRef (coach l)), (audioContextRef (coach l)),
        (inputContextRef (coach l)); reflexivity.
  - auto.
  - split; [exact Hl|]. cbn.
    destruct (animationFrameRef (coach l)), (audioContextRef (coach l)),
      (inputContextRef (coach l)); reflexivity.
  - destruct (animationFrameRef (coach l)); [|auto].
    unfold updateVolume. destruct (analyserRef (coach l)); cbn; auto.
  - destruct (callbacks l); [|auto]. split; [exact Hl|].
    unfold onmessage. destruct data as [s|]; [|reflexivity].
    destruct (truthy s && outputNodeRef (coach l)); [|reflexivity].
    destruct (decodeSegment s); reflexivity.
  - destruct (callbacks l); cbn; auto.
  - destruct (callbacks l); [|auto]. split; [exact Hl|]. cbn.
    destruct (animationFrameRef (coach l)), (audioContextRef (coach l)),
      (inputContextRef (coach l)); reflexivity.
  - rewrite Hl. auto.
Qed.

(** X17: No frame is sent to the remote session before it has reported that
    it is open: as long as no open event has arrived since the handler
    was last absent, audio-process events send nothing. *)
Theorem nothing_sent_before_open (events : list Event) (l : Live) :
  forallb (fun e => negb (is_RemoteOpen e)) events = true ->
  onaudioprocess l = None ->
  filter is_send (snd (run encodeFrame decodeSegment events l)) = []
  /\ onaudioprocess (fst (run encodeFrame decodeSegment events l)) = None.
Proof.
  revert l. induction events as [|e events IH]; intros l Hall Hl; simpl; [auto|].
  simpl in Hall. apply andb_true_iff in Hall. destruct Hall as [He Hall].
  apply negb_true_iff in He.
  destruct (step_before_open e l He Hl) as [S1 S2].
  destruct (step encodeFrame decodeSegment e l) as [l1 k1]. simpl in S1, S2.
  destruct (IH l1 Hall S1) as [R1 R2].
  destruct (run encodeFrame decodeSegment events l1) as [l2 k2]. simpl in *.
  rewrite filter_app, S2, R1. auto.
Qed.

End AnyNumbers.

Lemma receive_schedules_decodable_witness :
  starts (snd (receive sample_decode
                 [(Some "AAAA"%string, 0%Q); (None, 1%Q);
                  (Some "!!"%string, 2%Q); (Some ""%string, 3%Q);
                  (Some "AAAA"%string, 4%Q)]
                 connected_coach))
  = play [(0%Q, mkBuffer 1%Q); (4%Q, mkBuffer 1%Q)] 0%Q.
Proof.
  refine (proj1 (receive_schedules_decodable sample_decode
            [(Some "AAAA"%string, 0%Q); (None, 1%Q);
             (Some "!!"%string, 2%Q); (Some ""%string, 3%Q);
             (Some "AAAA"%string, 4%Q)]
            connected_coach _)).
  reflexivity.
Defined.

Lemma nothing_sent_before_open_witness :
  filter is_send
    (snd (run (fun _ : list Q => "frame"%string) sample_decode
            [ClickConnect StreamGranted 0%Q; AudioProcess [0%Q];
             ClickMute; AudioProcess [1%Q]]
            start)) = [].
Proof.
  refine (proj1 (nothing_sent_before_open (fun _ : list Q => "frame"%string)
            sample_decode
            [ClickConnect StreamGranted 0%Q; AudioProcess [0%Q];
             ClickMute; AudioProcess [1%Q]]
            start _ _)); reflexivity.
Defined.

Local Open Scope Q_scope.

(** X14: Two segments scheduled one after the other never overlap and never
    start in the past: each starts no earlier than the clock read at its
    arrival, the second no earlier than the end of the first, and exactly
    at that end when it arrived by then. *)
Theorem consecutive_segments_do_not_overlap
    (pre post : list (Q * AudioBuffer))
    (now now' : Q) (buf buf' : AudioBuffer) (next : Q) :
  exists when when',
    play (pre ++ (now, buf) :: (now', buf') :: post) next
    = play pre next ++ when :: when' :: play post (when' + duration buf')
    /\ now <= when
    /\ now' <= when'
    /\ when + duration buf <= when'
    /\ (now' <= when + duration buf -> when' = when + duration buf).
Proof.
  rewrite play_app. cbn [play]. unfold schedule.
  set (n0 := advance pre next).
  destruct (LiveCoachFacts.num_lt_Q_spec n0 now) as [H0|H0];
    match goal with
    | |- context [num_lt (num_add ?w ?d) now'] =>
        destruct (LiveCoachFacts.num_lt_Q_spec (num_add w d) now') as [H1|H1];
        cbn [num_add Number_Q] in H1
    end.
  - exists now, now'. repeat split; try lra; intros; exfalso; lra.
  - exists now, (now + duration buf). repeat split; lra.
  - exists n0, now'. repeat split; try lra; intros; exfalso; lra.
  - exists n0, (n0 + duration buf). repeat split; lra.
Qed.

Lemma advance_monotone (segs : list (Q * AudioBuffer)) :
  Forall (fun seg => 0 <= duration (snd seg)) segs ->
  forall next, next <= advance segs next.
Proof.
  induction 1 as [|[now buf] segs Hd _ IH]; intros next; cbn [advance]; [lra|].
  cbn [snd] in Hd. eapply Qle_trans; [|apply IH].
  unfold schedule. cbn [snd].
  destruct (LiveCoachFacts.num_lt_Q_spec next now);
    cbn [num_add Number_Q]; lra.
Qed.

Lemma decodable_durations (decodeSegment : string -> option AudioBuffer)
    (msgs : list (option string * Q)) :
  (forall s buf, decodeSegment s = Some buf -> 0 <= duration buf) ->
  Forall (fun seg => 0 <= duration (snd seg)) (decodable decodeSegment msgs).
Proof.
  intros Hd. unfold decodable. induction msgs as [|[data now] msgs IH]; simpl.
  - constructor.
  - apply Forall_app. split; [|exact IH].
    destruct data as [s|]; [|constructor].
    destruct (truthy s); [|constructor].
    destruct (decodeSegment s) as [buf|] eqn:E; [|constructor].
    constructor; [|constructor]. simpl. eapply Hd. exact E.
Qed.

(** X15: Within a session [nextStartTimeRef] only moves forward: whatever
    messages arrive, it ends no earlier than it was, as decoded buffers
    have durations that are not negative. *)
Theorem nextStartTime_only_advances
    (decodeSegment : string -> option AudioBuffer)
    (msgs : list (option string * Q)) (c : Coach) :
  (forall s buf, decodeSegment s = Some buf -> 0 <= duration buf) ->
  outputNodeRef c = true ->
  nextStartTimeRef c <= nextStartTimeRef (fst (receive decodeSegment msgs c)).
Proof.
  intros Hd. revert c.
  induction msgs as [|[data now] msgs IH]; intros c Ho; cbn [receive].
  - cbn [fst]. lra.
  - destruct (onmessage_view decodeSegment data now c Ho) as (_ & V2 & V3).
    pose proof (advance_monotone _
                  (decodable_durations decodeSegment [(data, now)] Hd)
                  (nextStartTimeRef c)) as Hstep.
    rewrite <- V2 in Hstep.
    destruct (onmessage decodeSegment data now c) as [c1 k1]. cbn [fst] in *.
    specialize (IH c1 V3).
    destruct (receive decodeSegment msgs c1) as [c2 k2]. cbn [fst] in *.
    lra.
Qed.

Lemma nextStartTime_only_advances_witness :
  nextStartTimeRef connected_coach
  <= nextStartTimeRef
       (fst (receive sample_decode
               [(Some "AAAA"%string, 0); (Some "!!"%string, 2);
                (Some "AAAA"%string, 4)]
               connected_coach)).
Proof.
  refine (nextStartTime_only_advances sample_decode
            [(Some "AAAA"%string, 0); (Some "!!"%string, 2);
             (Some "AAAA"%string, 4)]
            connected_coach _ _).
  - intros s buf. unfold sample_decode.
    destruct (s =? "AAAA")%string; [|discriminate].
    intros E. injection E as <-. simpl. discriminate.
  - reflexivity.
Defined.

(** X16: A connect starts the schedule afresh: whatever [nextStartTimeRef]
    the previous session left, the first segment decoded after the
    connect starts at the clock reading of its arrival. *)
Theorem connect_restarts_schedule
    (decodeSegment : string -> option AudioBuffer)
    (l : Live) (level now : Q) (s : string) (buf : AudioBuffer) :
  0 <= now ->
  truthy s = true ->
  decodeSegment s = Some buf ->
  exists when,
    snd (onmessage decodeSegment (Some s) now
           (coach (fst (connect StreamGranted level l))))
    = [BufferSourceStart when]
    /\ when == now
    /\ nextStartTimeRef
         (fst (onmessage decodeSegment (Some s) now
                 (coach (fst (connect StreamGranted level l)))))
       == now + duration buf.
Proof.
  intros Hnow Hs Hd.
  set (c := coach (fst (connect StreamGranted level l))).
  assert (Ho : outputNodeRef c = true).
  { subst c. unfold connect, updateVolume. cbn. reflexivity. }
  assert (Hn : nextStartTimeRef c = 0).
  { subst c. unfold connect, updateVolume. cbn. reflexivity. }
  rewrite (LiveCoachFacts.onmessage_decoded decodeSegment s buf now c Hs Ho Hd).
  rewrite Hn. cbn [fst snd nextStartTimeRef set_nextStartTime].
  destruct (LiveCoachFacts.num_lt_Q_spec 0 now) as [Hlt|Hle].
  - exists now. repeat split; cbn [num_add Number_Q]; lra.
  - exists 0. repeat split; cbn [num_add Number_Q]; lra.
Qed.

Lemma connect_restarts_schedule_witness :
  exists when,
    snd (onmessage sample_decode (Some "AAAA"%string) 3
           (coach (fst (connect StreamGranted 0
                          (mkLive (set_nextStartTime 100 connected_coach)
                                  None None)))))
    = [BufferSourceStart when]
    /\ when == 3
    /\ nextStartTimeRef
         (fst (onmessage sample_decode (Some "AAAA"%string) 3
                 (coach (fst (connect StreamGranted 0
                                (mkLive (set_nextStartTime 100 connected_coach)
                                        None None))))))
       == 3 + duration (mkBuffer 1).
Proof.
  refine (connect_restarts_schedule sample_decode
            (mkLive (set_nextStartTime 100 connected_coach) None None)
            0 3 "AAAA"%string (mkBuffer 1) _ _ _).
  - discriminate.
  - reflexivity.
  - reflexivity.
Defined.

Local Close Scope Q_scope.

End LiveCoachViewFacts.

(** * Further properties of the failure categories *)

Module RemoteErrorsViewFacts.
Import RemoteErrors RemoteErrorsView.

Local Open Scope string_scope.

Lemma prefix_append (s t : string) : String.prefix s (s ++ t) = true.
Proof.
  induction s as [|c s IH]; simpl; [destruct t; reflexivity|].
  destruct (ascii_dec c c); [exact IH | congruence].
Qed.

Lemma includes_unfold (hay needle : string) :
  includes hay needle
  = String.prefix needle hay
    || match hay with
       | EmptyString => false
       | String _ rest => includes rest needle
       end.
Proof. destruct hay; reflexivity. Qed.

Lemma includes_middle (pre s post : string) :
  includes (pre ++ s ++ post) s = true.
Proof.
  induction pre as [|c pre IH]; simpl.
  - rewrite includes_unfold, prefix_append. reflexivity.
  - rewrite IH. apply orb_true_r.
Qed.

Lemma toLowerCase_append (s t : string) :
  toLowerCase (s ++ t) = toLowerCase s ++ toLowerCase t.
Proof. induction s as [|c s IH]; simpl; [reflexivity | rewrite IH; reflexivity]. Qed.

Lemma lower_idempotent (c : ascii) : lower (lower c) = lower c.
Proof. destruct c as [[] [] [] [] [] [] [] []]; vm_compute; reflexivity. Qed.

Lemma toLowerCase_idempotent (s : string) :
  toLowerCase (toLowerCase s) = toLowerCase s.
Proof.
  induction s as [|c s IH]; simpl; [reflexivity|].
  rewrite lower_idempotent, IH. reflexivity.
Qed.

Lemma shows_keywords (c : Category) (e : string) :
  c <> Generic -> shows c e = existsb (includes e) (keywords c).
Proof.
  destruct c; intros Hc; try congruence; simpl; rewrite orb_false_r; reflexivity.
Qed.

(** X18: A description that contains one of the texts of a category, anywhere
    and in any letter case, is never put in a category that is tested
    later than that one; in particular it is not reported as a generic
    failure.  The letter case of the whole description does not matter. *)
Theorem keyword_anywhere_any_case
    (c : Category) (k : string) (pre s post : string) :
  In k (keywords c) ->
  toLowerCase s = k ->
  rank (categorize (pre ++ s ++ post)) <= rank c
  /\ categorize (pre ++ s ++ post) <> Generic
  /\ categorize (toLowerCase (pre ++ s ++ post)) = categorize (pre ++ s ++ post).
Proof.
  intros Hk Hs.
  assert (Hc : c <> Generic) by (intros ->; exact Hk).
  assert (Hshow : shows c (toLowerCase (pre ++ s ++ post)) = true).
  { rewrite shows_keywords by assumption. apply existsb_exists.
    exists k. split; [assumption|].
    rewrite !toLowerCase_append, Hs. apply includes_middle. }
  assert (Hcase : categorize (toLowerCase (pre ++ s ++ post))
                  = categorize (pre ++ s ++ post)).
  { unfold categorize. rewrite toLowerCase_idempotent. reflexivity. }
  assert (G : rank (categorize (pre ++ s ++ post)) <= rank c
              /\ categorize (pre ++ s ++ post) <> Generic).
  { rewrite RemoteErrorsFacts.categorize_unfold. cbv zeta.
    revert Hshow. generalize (toLowerCase (pre ++ s ++ post)). intros e Hshow.
    destruct (shows SafetyFlag e) eqn:E1;
      [split; [destruct c; simpl; lia | discriminate]|].
    destruct (shows RateLimit e) eqn:E2;
      [split; [destruct c; simpl; try lia; congruence | discriminate]|].
    destruct (shows UnclearInput e) eqn:E3;
      [split; [destruct c; simpl; try lia; congruence | discriminate]|].
    destruct (shows Network e) eqn:E4;
      [split; [destruct c; simpl; try lia; congruence | discriminate]|].
    exfalso. destruct c; congruence. }
  destruct G as [G1 G2]. repeat split; assumption.
Qed.

Lemma keyword_anywhere_any_case_witness :
  rank (categorize ("Error: request " ++ "BLOCKED" ++ " (429, network)"))
  <= rank SafetyFlag.
Proof.
  refine (proj1 (keyword_anywhere_any_case SafetyFlag "blocked"
            "Error: request " "BLOCKED" " (429, network)" _ _)).
  - right. left. reflexivity.
  - reflexivity.
Defined.

End RemoteErrorsViewFacts.

(** * Properties of what is displayed *)

Module DisplayFacts.
Import Display.

Local Open Scope string_scope.

Lemma length_append (s t : string) :
  String.length (s ++ t) = String.length s + String.length t.
Proof. induction s as [|c s IH]; simpl; [reflexivity | rewrite IH; reflexivity]. Qed.

Lemma append_inj (a a' x x' : string) :
  String.length a = String.length a' ->
  a ++ x = a' ++ x' -> a = a' /\ x = x'.
Proof.
  revert a'. induction a as [|c a IH]; intros [|c' a'] Hl E; simpl in *;
    try discriminate; [auto|].
  injection E as Ec E. injection Hl as Hl.
  destruct (IH a' Hl E) as [-> ->]. subst. auto.
Qed.

Lemma decimal_injective (n m : N) : decimal n = decimal m -> n = m.
Proof.
  unfold decimal. intros E.
  apply (f_equal NilEmpty.uint_of_string) in E. rewrite !NilEmpty.usu in E.
  injection E as E. apply (f_equal N.of_uint) in E.
  rewrite !DecimalN.Unsigned.of_to in E. exact E.
Qed.

Lemma below_60 (P : N -> bool) :
  forallb (fun i => P (N.of_nat i)) (seq 0 60) = true ->
  forall k, (k < 60)%N -> P k = true.
Proof.
  intros Hall k Hk. rewrite forallb_forall in Hall.
  specialize (Hall (N.to_nat k)). rewrite N2Nat.id in Hall. apply Hall.
  apply in_seq. lia.
Qed.

Lemma seconds_two_chars (k : N) :
  (k < 60)%N -> two_chars (padStart 2 "0" (decimal k)) = true.
Proof. apply (below_60 (fun k => two_chars (padStart 2 "0" (decimal k)))). vm_compute. reflexivity. Qed.

Lemma seconds_injective (k k' : N) :
  (k < 60)%N -> (k' < 60)%N ->
  padStart 2 "0" (decimal k) = padStart 2 "0" (decimal k') -> k = k'.
Proof.
  intros Hk Hk' E.
  assert (H : seconds_distinct k = true).
  { apply (below_60 seconds_distinct); [|assumption]. vm_compute. reflexivity. }
  unfold seconds_distinct in H. rewrite forallb_forall in H.
  assert (Hin : In (N.to_nat k') (seq 0 60)) by (apply in_seq; lia).
  specialize (H (N.to_nat k') Hin). rewrite N2Nat.id in H.
  rewrite E, String.eqb_refl in H. cbn [implb] in H.
  apply N.eqb_eq. exact H.
Qed.

(** X19: The text shown for a duration is the minutes in decimal, a colon and
    exactly two characters for the seconds, and two different durations
    never show the same text. *)
Theorem formatTime_is_unambiguous (n m : N) :
  (n <= MAX_SAFE_INTEGER)%N -> (m <= MAX_SAFE_INTEGER)%N ->
  (exists a b : ascii,
      formatTime n = decimal (n / 60) ++ ":" ++ String a (String b ""))
  /\ String.length (formatTime n) = String.length (decimal (n / 60)) + 3
  /\ (formatTime n = formatTime m -> n = m).
Proof.
  intros _ _.
  assert (Hs : forall k, exists a b : ascii,
              padStart 2 "0" (decimal (k mod 60)) = String a (String b "")).
  { intros k.
    pose proof (seconds_two_chars (k mod 60)
                  (N.mod_lt k 60 ltac:(discriminate))) as H2.
    destruct (padStart 2 "0" (decimal (k mod 60))) as [|a [|b [|]]];
      try discriminate H2. exists a, b. reflexivity. }
  destruct (Hs n) as (a & b & En). destruct (Hs m) as (a' & b' & Em).
  unfold formatTime. cbv zeta. rewrite En.
  split; [exists a, b; reflexivity|].
  split; [rewrite length_append; simpl; lia|].
  rewrite Em. intros E.
  assert (Hl : String.length (decimal (n / 60)) = String.length (decimal (m / 60))).
  { apply (f_equal String.length) in E. rewrite !length_append in E.
    simpl in E. lia. }
  destruct (append_inj _ _ _ _ Hl E) as [Emin Esec].
  apply decimal_injective in Emin.
  injection Esec as Ea Eb.
  assert (Emod : (n mod 60 = m mod 60)%N).
  { apply seconds_injective; try (apply N.mod_lt; discriminate).
    rewrite En, Em, Ea, Eb. reflexivity. }
  rewrite (N.div_mod n 60), (N.div_mod m 60) by discriminate.
  rewrite Emin, Emod. reflexivity.
Qed.

Lemma formatTime_is_unambiguous_witness :
  String.length (formatTime 3599) = String.length (decimal (3599 / 60)) + 3.
Proof.
  refine (proj1 (proj2 (formatTime_is_unambiguous 3599 0 _ _))); discriminate.
Defined.

Example formatTime_examples :
  formatTime 0 = "0:00" /\ formatTime 9 = "0:09" /\ formatTime 65 = "1:05"
  /\ formatTime 300 = "5:00" /\ formatTime 3600 = "60:00".
Proof. repeat split. Qed.

End DisplayFacts.

(** * Properties of the waveform *)

Module WaveformFacts.
Import Waveform.

Local Open Scope Q_scope.

Lemma sample_bounds (d : Byte.byte) : 0 <= sample d /\ sample d <= 255.
Proof.
  unfold sample. pose proof (Byte.to_nat_bounded d) as Hb.
  split.
  - change 0 with (inject_Z 0). rewrite <- Zle_Qle. lia.
  - change 255 with (inject_Z 255). rewrite <- Zle_Qle. lia.
Qed.

Lemma ordinate_bounds (d : Byte.byte) (h : Q) :
  0 <= h ->
  0 <= sample d / 128 * h / 2 /\ sample d / 128 * h / 2 <= (255 # 256) * h.
Proof.
  intros Hh. destruct (sample_bounds d) as [H0 H255].
  assert (E : sample d / 128 * h / 2 == (1 # 256) * (sample d * h)) by field.
  rewrite E.
  pose proof (Qmult_le_0_compat _ _ H0 Hh) as P0.
  pose proof (Qmult_le_compat_r _ _ h H255 Hh) as P1.
  split; lra.
Qed.

Lemma points_app (a b : list Op) : points (a ++ b) = points a ++ points b.
Proof.
  induction a as [|o a IH]; [reflexivity|].
  destruct o; simpl; rewrite ?IH; reflexivity.
Qed.

Lemma points_path (sw h : Q) (Hsw : 0 <= sw) (Hh : 0 <= h) :
  forall (dataArray : list Byte.byte) (i : nat) (x : Q),
    Forall (fun p => x <= fst p
                     /\ fst p + sw
                        <= x + sw * inject_Z (Z.of_nat (length dataArray))
                     /\ 0 <= snd p
                     /\ snd p <= (255 # 256) * h)
           (points (path sw h i x dataArray)).
Proof.
  induction dataArray as [|d rest IH]; intros i x; [constructor|].
  assert (En : inject_Z (Z.of_nat (length (d :: rest)))
               == inject_Z (Z.of_nat (length rest)) + 1).
  { simpl length. rewrite Nat2Z.inj_succ. unfold Z.succ.
    rewrite inject_Z_plus. reflexivity. }
  assert (Hn : 0 <= inject_Z (Z.of_nat (length rest))).
  { change 0 with (inject_Z 0). rewrite <- Zle_Qle. lia. }
  pose proof (Qmult_le_0_compat _ _ Hsw Hn) as Hprod.
  assert (Hhead : let p := (x, sample d / 128 * h / 2) in
                  x <= fst p
                  /\ fst p + sw <= x + sw * inject_Z (Z.of_nat (length (d :: rest)))
                  /\ 0 <= snd p /\ snd p <= (255 # 256) * h).
  { cbv zeta. cbn [fst snd]. rewrite En.
    destruct (ordinate_bounds d h Hh). repeat split; try assumption; lra. }
  assert (Htail : Forall (fun p => x <= fst p
                     /\ fst p + sw
                        <= x + sw * inject_Z (Z.of_nat (length (d :: rest)))
                     /\ 0 <= snd p
                     /\ snd p <= (255 # 256) * h)
                    (points (path sw h (S i) (x + sw) rest))).
  { eapply Forall_impl; [|apply (IH (S i) (x + sw))].
    intros p (P1 & P2 & P3 & P4). rewrite En. repeat split; try assumption; lra. }
  cbn [path]. destruct (i =? 0)%nat; cbn [points]; constructor; assumption.
Qed.

(** X20: Every point of the trace lies on the canvas: its abscissa is between
    0 and the width and its ordinate between 0 and the height, the
    height itself excluded. *)
Theorem waveform_stays_on_canvas
    (opts : UseWaveformOptions) (dataArray : list Byte.byte)
    (k : Hook) (canvas : Canvas) :
  canvasRef k = Some canvas ->
  (0 < width canvas)%Z -> (0 < height canvas)%Z ->
  Forall (fun p => 0 <= fst p /\ fst p <= inject_Z (width canvas)
                   /\ 0 <= snd p /\ snd p < inject_Z (height canvas))
         (points (snd (draw opts dataArray k))).
Proof.
  intros Hc Hw Hh. unfold draw. rewrite Hc.
  destruct (analyserRef k); [|constructor].
  destruct (context2d canvas); [|constructor].
  cbn [negb snd].
  assert (W : 0 < inject_Z (width canvas))
    by (change 0 with (inject_Z 0); rewrite <- Zlt_Qlt; assumption).
  assert (H : 0 < inject_Z (height canvas))
    by (change 0 with (inject_Z 0); rewrite <- Zlt_Qlt; assumption).
  set (w := inject_Z (width canvas)) in *.
  set (h := inject_Z (height canvas)) in *.
  rewrite !points_app. cbn [points app].
  apply Forall_app. split.
  - destruct dataArray as [|d rest]; [constructor|].
    set (n := inject_Z (Z.of_nat (length (d :: rest)))).
    assert (Hn : 0 < n).
    { subst n. change 0 with (inject_Z 0). rewrite <- Zlt_Qlt. simpl. lia. }
    assert (Hsw : 0 <= w / n).
    { apply Qle_shift_div_l; [assumption|]. lra. }
    assert (Eprod : w / n * n == w) by (field; lra).
    eapply Forall_impl;
      [|apply (points_path (w / n) h Hsw (Qlt_le_weak _ _ H) (d :: rest) 0%nat 0)].
    intros p (P1 & P2 & P3 & P4). fold n in P2. rewrite Eprod in P2.
    repeat split; try assumption; lra.
  - constructor; [|constructor]. cbn [fst snd].
    assert (Eh : h / 2 == h * (1 # 2)) by field.
    rewrite Eh. repeat split; lra.
Qed.

Lemma waveform_stays_on_canvas_witness :
  Forall (fun p => 0 <= fst p /\ fst p <= 600 /\ 0 <= snd p /\ snd p < 96)
         (points (snd (draw defaults [Byte.x00; Byte.x80; Byte.xff]
                         (mkHook (Some (mkCanvas 600 96 true)) false true)))).
Proof.
  refine (waveform_stays_on_canvas defaults [Byte.x00; Byte.x80; Byte.xff]
            (mkHook (Some (mkCanvas 600 96 true)) false true)
            (mkCanvas 600 96 true) _ _ _); reflexivity.
Defined.

Lemma points_path_silence (sw h : Q) :
  forall (dataArray : list Byte.byte) (i : nat) (x : Q),
    Forall (fun d => d = Byte.x80) dataArray ->
    Forall (fun p => snd p == h / 2) (points (path sw h i x dataArray)).
Proof.
  induction dataArray as [|d rest IH]; intros i x Hall; [constructor|].
  inversion Hall as [|? ? Hd Hrest]; subst.
  cbn [path]. destruct (i =? 0)%nat; cbn [points]; constructor;
    try (apply IH; assumption); cbn [snd];
    change (sample Byte.x80) with 128; field.
Qed.

(** X21: Silence, where every sample reads 128, is drawn as a straight line at
    half the height of the canvas. *)
Theorem silence_is_drawn_at_mid_height
    (opts : UseWaveformOptions) (dataArray : list Byte.byte)
    (k : Hook) (canvas : Canvas) :
  canvasRef k = Some canvas ->
  Forall (fun d => d = Byte.x80) dataArray ->
  Forall (fun p => snd p == inject_Z (height canvas) / 2)
         (points (snd (draw opts dataArray k))).
Proof.
  intros Hc Hall. unfold draw. rewrite Hc.
  destruct (analyserRef k); [|constructor].
  destruct (context2d canvas); [|constructor].
  cbn [negb snd]. rewrite !points_app. cbn [points app].
  apply Forall_app. split.
  - apply points_path_silence. assumption.
  - constructor; [|constructor]. cbn [snd]. reflexivity.
Qed.

Lemma silence_is_drawn_at_mid_height_witness :
  Forall (fun p => snd p == 96 / 2)
         (points (snd (draw defaults [Byte.x80; Byte.x80; Byte.x80]
                         (mkHook (Some (mkCanvas 600 96 true)) false true)))).
Proof.
  refine (silence_is_drawn_at_mid_height defaults [Byte.x80; Byte.x80; Byte.x80]
            (mkHook (Some (mkCanvas 600 96 true)) false true)
            (mkCanvas 600 96 true) _ _).
  - reflexivity.
  - repeat constructor.
Defined.

(** X22: [stopDrawing] ends the loop: it cancels the pending frame, and a
    frame callback that would still run draws nothing and requests no
    further frame; [startDrawing] on a canvas with a context requests
    the next frame. *)
Theorem stopDrawing_ends_the_loop
    (opts : UseWaveformOptions) (dataArray : list Byte.byte) (k : Hook) :
  draw opts dataArray (fst (stopDrawing opts k)) = (fst (stopDrawing opts k), [])
  /\ animationFrameRef (fst (stopDrawing opts k)) = false
  /\ (animationFrameRef k = true -> In CancelFrame (snd (stopDrawing opts k)))
  /\ (forall canvas,
        canvasRef k = Some canvas -> context2d canvas = true ->
        In RequestFrame (snd (startDrawing opts dataArray k))
        /\ animationFrameRef (fst (startDrawing opts dataArray k)) = true).
Proof.
  split; [reflexivity|]. split; [reflexivity|]. split.
  - intros Hf. unfold stopDrawing. rewrite Hf. left. reflexivity.
  - intros canvas Hc Hx. unfold startDrawing, draw.
    cbn [analyserRef canvasRef negb]. rewrite Hc, Hx.
    cbn [negb snd fst animationFrameRef]. split; [|reflexivity].
    apply in_or_app. right. apply in_or_app. right. simpl. auto.
Qed.

End WaveformFacts.
